(** * Inventory Ledger Engine (server.js): a shallow embedding

    The development follows src/server.js: the tabular store
    ([loadExcelSync], [saveToExcelSync]), the identifier generator
    ([generateComponentId]), the record matcher that every handler inlines,
    the pending-request grouper and the submit / approve / reject / delete /
    update handlers; then the user accounts ([loadUsers], [saveUsers],
    [usernameExists], [findUser], [registerUser], the signup and login
    handlers) and the file names of the archive (upload and listing).

    Modelling conventions.
    - An inventory record is a JS object used as a map from field name to a
      scalar: [gmap string value].  Reading a field that is not there gives
      [VUndef], as [item['k']] does.
    - JS numbers are modelled by exact integers ([Z], and [N] for the
      counter of the identifier generator).  This agrees with the engine as
      long as every number stays in the safe-integer range (below 2^53).
    - Strings are byte strings; [toLowerCase], [trim] and [\d] are modelled
      on ASCII.
    - Engine limits (the number of arguments [Math.max] accepts, memory)
      are not modelled.
    - A request runs to its answer before the next one starts; the
      account functions, asynchronous in the source, are not interleaved.
    - The xlsx workbook, the upload directory and the clock are
      collaborators: the store keeps the rows that [sheet_to_json] would
      read back, each request carries the outcome of its attachment step and
      the date of the day. *)

From Stdlib Require Import ZArith NArith Ascii String List Lia.
From Stdlib Require Import DecimalString DecimalN DecimalPos DecimalFacts.
From stdpp Require Import base option list gmap strings fin_maps.

Local Open Scope string_scope.
Local Open Scope list_scope.
#[local] Arguments String.append : simpl nomatch.

(** ** Scalars and their JS coercions *)

Inductive value :=
  | VUndef
  | VNull
  | VBool (b : bool)
  | VNum (n : Z)
  | VStr (s : string).

Global Instance value_eq_dec : EqDecision value.
Proof. solve_decision. Defined.

(** ToBoolean. *)
Definition truthy (v : value) : bool :=
  match v with
  | VUndef | VNull => false
  | VBool b => b
  | VNum n => negb (Z.eqb n 0)
  | VStr s => negb (String.eqb s "")
  end.

(** [a || b] *)
Definition js_or (a b : value) : value := if truthy a then a else b.

Definition N_toString (n : N) : string := NilZero.string_of_uint (N.to_uint n).
Definition Z_toString (n : Z) : string := NilZero.string_of_int (Z.to_int n).

(** [v.toString()]; [None] stands for the TypeError raised on [undefined]
    and [null]. *)
Definition js_toString (v : value) : option string :=
  match v with
  | VUndef | VNull => None
  | VBool true => Some "true"
  | VBool false => Some "false"
  | VNum n => Some (Z_toString n)
  | VStr s => Some s
  end.

(** Template-literal / property-key coercion [String(v)], total. *)
Definition js_String (v : value) : string :=
  match v with
  | VUndef => "undefined"
  | VNull => "null"
  | _ => default "" (js_toString v)
  end.

(** ** Records *)

Abbreviation record := (gmap string value).

(** [item[k]] *)
Definition get (item : record) (k : string) : value := default VUndef (item !! k).

(** [item[k] = v] *)
Definition assign (k : string) (v : value) (item : record) : record := <[k := v]> item.

(** An object literal, keys in source order. *)
Definition obj (fields : list (string * value)) : record :=
  foldl (fun o kv => assign kv.1 kv.2 o) ∅ fields.

(** ** String primitives used by the source *)

Definition is_digit (c : ascii) : bool :=
  let n := nat_of_ascii c in (48 <=? n)%nat && (n <=? 57)%nat.

(** The longest run of [\d] at the head of [s]. *)
Fixpoint take_digits (s : string) : string :=
  match s with
  | String c s' => if is_digit c then String c (take_digits s') else EmptyString
  | EmptyString => EmptyString
  end.

(** An attempt of [/CMP-(\d+)/] at the head of [s]: the captured group. *)
Definition match_CMP_here (s : string) : option string :=
  match s with
  | String "C" (String "M" (String "P" (String "-" rest))) =>
      match take_digits rest with
      | EmptyString => None
      | ds => Some ds
      end
  | _ => None
  end.

(** [s.match(/CMP-(\d+)/)]: the regex is not anchored, the engine tries
    every start position from the left; the result is [match[1]]. *)
Fixpoint match_CMP (s : string) : option string :=
  match match_CMP_here s with
  | Some ds => Some ds
  | None =>
      match s with
      | String _ s' => match_CMP s'
      | EmptyString => None
      end
  end.

(** [parseInt(ds)] on a captured group, which holds decimal digits only. *)
Definition parseInt (ds : string) : N :=
  match NilEmpty.uint_of_string ds with
  | Some u => N.of_uint u
  | None => 0%N
  end.

Fixpoint repeat_char (c : ascii) (n : nat) : string :=
  match n with
  | O => EmptyString
  | S n' => String c (repeat_char c n')
  end.

(** [s.padStart(n, c)] for a one-character filler. *)
Definition padStart (n : nat) (c : ascii) (s : string) : string :=
  repeat_char c (n - String.length s) +:+ s.

Definition lower_char (c : ascii) : ascii :=
  let n := nat_of_ascii c in
  if (65 <=? n)%nat && (n <=? 90)%nat then ascii_of_nat (n + 32) else c.

Fixpoint toLowerCase (s : string) : string :=
  match s with
  | String c s' => String (lower_char c) (toLowerCase s')
  | EmptyString => EmptyString
  end.

Definition is_space (c : ascii) : bool :=
  let n := nat_of_ascii c in ((9 <=? n)%nat && (n <=? 13)%nat) || (n =? 32)%nat.

Fixpoint trimStart (s : string) : string :=
  match s with
  | String c s' => if is_space c then trimStart s' else s
  | EmptyString => EmptyString
  end.

Fixpoint string_rev (s : string) : string :=
  match s with
  | String c s' => string_rev s' +:+ String c EmptyString
  | EmptyString => EmptyString
  end.

(** [s.trim()] *)
Definition trim (s : string) : string :=
  string_rev (trimStart (string_rev (trimStart s))).

(** ** Tabular store *)

(** The persisted workbook.  [Sheet rows] holds the rows that
    [xlsx.utils.sheet_to_json] yields for the first sheet; [Corrupt] is a
    file on which [xlsx.readFile] throws. *)
Inductive workbook :=
  | Missing
  | Corrupt
  | Sheet (rows : list record).

(** What a request sees of the outside world: the date of the day
    ([new Date().toISOString().split('T')[0]]) and whether [xlsx.writeFile]
    goes through. *)
Record env := { today : string; disk_ok : bool }.

(** [v && v.toString().trim() !== ''] *)
Definition has_text (v : value) : bool :=
  truthy v && negb (String.eqb (trim (default "" (js_toString v))) "").

Definition keep_row (item : record) : bool :=
  has_text (get item "Component ID") || has_text (get item "Part No").

Definition loadExcelSync (e : env) (wb : workbook) : list record * workbook :=
  match wb with
  | Missing => ([], if disk_ok e then Sheet [] else Missing)
  | Corrupt => ([], Corrupt)
  | Sheet rows => (List.filter keep_row rows, wb)
  end.

Definition nullish (v : value) : bool :=
  match v with
  | VUndef | VNull => true
  | _ => false
  end.

(** [json_to_sheet] leaves no cell for an [undefined] or [null] field. *)
Definition sheet_row (item : record) : record :=
  filter (fun kv => nullish kv.2 = false) item.

(** The rows read back from a workbook written from [data]: a row without
    any cell is skipped by [sheet_to_json]. *)
Definition written_rows (data : list record) : list record :=
  List.filter (fun row => negb (bool_decide (row = ∅))) (map sheet_row data).

(** [xlsx.readFile] followed by [sheet_to_json]; [None] when it throws. *)
Definition read_rows (wb : workbook) : option (list record) :=
  match wb with
  | Sheet rows => Some rows
  | _ => None
  end.

Definition saveToExcelSync (e : env) (data : list record) (wb : workbook)
  : bool * workbook :=
  if disk_ok e then
    let wb' := Sheet (written_rows data) in
    match read_rows wb' with
    | Some verifyData => (true, wb')   (* verifyData.length goes to the log only *)
    | None => (false, wb')
    end
  else (false, wb).

(** ** Identifier generator *)

(** [Math.max(0, ...ids)] *)
Definition Math_max0 (ids : list N) : N := foldr N.max 0%N ids.

Definition suffix_of_item (item : record) : N :=
  match match_CMP (default "" (js_toString (get item "Component ID"))) with
  | Some ds => parseInt ds
  | None => 0%N
  end.

Definition existingIds (existingData : list record) : list N :=
  map suffix_of_item
      (List.filter (fun item => truthy (get item "Component ID")) existingData).

Definition generateComponentId (existingData : list record) : string :=
  let maxId := Math_max0 (existingIds existingData) in
  "CMP-" +:+ padStart 3 "0" (N_toString (maxId + 1)).

(** ** Record matcher *)

(** [item[k] ? item[k].toString() : null] *)
Definition key_string (v : value) : option string :=
  if truthy v then js_toString v else None.

Definition key_is (v : value) (id : string) : bool :=
  match key_string v with
  | Some s => String.eqb s id
  | None => false
  end.

(** [issueNo === id || storageNo === id || componentId === id], the test
    inlined in the lookup, approve, reject, delete and update handlers. *)
Definition record_matches (item : record) (id : string) : bool :=
  key_is (get item "Issue No") id
  || key_is (get item "Storage No") id
  || key_is (get item "Component ID") id.

(** GET /api/components/:identifier *)
Definition find_component (e : env) (identifier : string) (wb : workbook)
  : option record * workbook :=
  let '(currentData, wb1) := loadExcelSync e wb in
  (List.find (fun item => record_matches item identifier) currentData, wb1).

(** ** Grouper (GET /api/requests/pending) *)

(** [groupedRequests] starts as [{}]: reading a key it does not own falls
    through to [Object.prototype], whose properties are all truthy. *)
Definition object_prototype_keys : list string :=
  [ "constructor"; "__defineGetter__"; "__defineSetter__"; "hasOwnProperty";
    "__lookupGetter__"; "__lookupSetter__"; "isPrototypeOf";
    "propertyIsEnumerable"; "toString"; "valueOf"; "__proto__";
    "toLocaleString" ].

(** The own properties of [groupedRequests], in insertion order. *)
Abbreviation groups := (list (string * record)).

Fixpoint own (o : groups) (k : string) : option record :=
  match o with
  | [] => None
  | (k', item) :: o' => if String.eqb k' k then Some item else own o' k
  end.

(** Truthiness of [groupedRequests[k]]. *)
Definition has_entry (o : groups) (k : string) : bool :=
  match own o k with
  | Some _ => true
  | None => bool_decide (k ∈ object_prototype_keys)
  end.

(** [item.Status && item.Status.toString().toLowerCase() === 'pending'] *)
Definition is_pending (item : record) : bool :=
  truthy (get item "Status")
  && String.eqb (toLowerCase (default "" (js_toString (get item "Status")))) "pending".

(** [item['Issue No'] || item['Storage No']] *)
Definition groupKey (item : record) : value :=
  js_or (get item "Issue No") (get item "Storage No").

(** The body of the [forEach] callback. *)
Definition group_step (o : groups) (item : record) : groups :=
  if is_pending item then
    if truthy (groupKey item) then
      if negb (has_entry o (js_String (groupKey item)))
      then o ++ [(js_String (groupKey item), item)]
      else o
    else o
  else o.

Definition groupedRequests (data : list record) : groups :=
  foldl group_step [] data.

(** A property key that is an array index: a canonical decimal numeral
    below 2^32 - 1. *)
Definition array_index (k : string) : option N :=
  if String.eqb (N_toString (parseInt k)) k && (parseInt k <? 4294967295)%N
  then Some (parseInt k) else None.

Fixpoint insert_by_index (x : N * record) (l : list (N * record))
  : list (N * record) :=
  match l with
  | [] => [x]
  | y :: l' => if (x.1 <=? y.1)%N then x :: l else y :: insert_by_index x l'
  end.

(** [Object.values(o)]: array-index keys first, in ascending order, then
    the other keys in insertion order. *)
Definition Object_values (o : groups) : list record :=
  let indexed :=
    foldr insert_by_index []
          (omap (fun kv => n ← array_index kv.1; Some (n, kv.2)) o) in
  let named :=
    List.filter (fun kv => bool_decide (array_index kv.1 = None)) o in
  map snd indexed ++ map snd named.

Definition pendingRequests (e : env) (wb : workbook) : list record * workbook :=
  let '(data, wb1) := loadExcelSync e wb in
  (Object_values (groupedRequests data), wb1).

(** ** Requests and responses *)

(** Outcome of the attachment step of one line item: no file came with it,
    the file was moved to the upload directory under [pdfFileName], or the
    step threw. *)
Inductive attachment :=
  | NoUpload
  | Uploaded (pdfFileName : string)
  | UploadFails.

(** One line item: the scalar fields of the parsed JSON object and the
    outcome of its attachment step. *)
Record component := { fields : record; upload : attachment }.

Inductive reply :=
  | Data (message : string) (data : list record)
  | ItemsUpdated (message : string) (itemsUpdated : nat)
  | ItemsDeleted (message : string) (itemsDeleted : nat).

(** [res.json(..)] with status 200, or [res.status(code).json({error})].
    The text of a caught exception is not part of the model. *)
Inductive response :=
  | Ok200 (body : reply)
  | Failure (status : nat) (error : string).

Definition count_text (n : nat) : string := N_toString (N.of_nat n).

(** ** Workflow engine: submit *)

(** The record literal of POST /api/issue. *)
Definition issue_item (id today : string) (body : record) (c : component)
    (pdfFileName : value) : record :=
  let component := fields c in
  obj [ ("Component ID", VStr id);
        ("Name", js_or (get component "partDescription") (VStr "Issued Component"));
        ("Part No", get component "partNo");
        ("Part Description", get component "partDescription");
        ("Type", VStr "Issued Component");
        ("Status", VStr "Pending");
        ("Date", VStr today);
        ("Issued To", get body "issueTo");
        ("Issue No", get body "issueNo");
        ("Issue Date", js_or (get component "issueDate") (get body "issueDate"));
        ("Request Text", get body "requestText");
        ("Issue For", get body "issueFor");
        ("System Manager", get body "systemManager");
        ("Serial No", get component "serialNo");
        ("S.No as per SO", get component "snoSO");
        ("Manufacturer", get component "manufacturer");
        ("Quality Grade", get component "qualityGrade");
        ("Sub System", get component "subSystem");
        ("Quantity Each", get component "quantityEach");
        ("Total Quantity", get component "totalQuantity");
        ("SO No", get component "soNo");
        ("SO PDF", if truthy pdfFileName
                   then VStr ("/uploads/" +:+ js_String pdfFileName) else VNull);
        ("Submitted By", get body "submittedBy") ].

(** The record literal of POST /api/storage. *)
Definition storage_item (id today : string) (body : record) (c : component)
  : record :=
  let component := fields c in
  obj [ ("Component ID", VStr id);
        ("Name", js_or (get component "partDescription") (VStr "Stored Component"));
        ("Part No", get component "partNo");
        ("Part Description", get component "partDescription");
        ("Type", VStr "Stored Component");
        ("Status", VStr "Pending");
        ("Date", VStr today);
        ("Storage No", get body "storageNo");
        ("Storage Date", get body "storageDate");
        ("SO Number", get body "soNumber");
        ("System Manager", get body "systemManager");
        ("Serial No", get component "serialNo");
        ("S.No as per PO", get component "snoPO");
        ("Grade", get component "grade");
        ("Storage Quantity", get component "quantity");
        ("Storage Temperature", get component "storageTemp");
        ("Relative Humidity", get component "relativeHumidity");
        ("Storage Data", get component "storageData");
        ("Delivery Date", get component "deliveryDate");
        ("SO No", get body "soNumber") ].

(** The attachment step of POST /api/issue: the value left in
    [pdfFileName], [None] when the step throws. *)
Definition issue_pdf (c : component) : option value :=
  match upload c with
  | NoUpload => Some VNull
  | Uploaded name => Some (VStr name)
  | UploadFails => None
  end.

(** One turn of the issue loop; [None] once an exception has escaped. *)
Definition issue_step (today : string) (body : record)
    (currentData : list record) (acc : option (list record)) (c : component)
  : option (list record) :=
  newItems ← acc;
  pdfFileName ← issue_pdf c;
  Some (newItems ++ [issue_item (generateComponentId (currentData ++ newItems))
                                today body c pdfFileName]).

Definition issue_items (today : string) (body : record)
    (currentData : list record) (components : list component)
  : option (list record) :=
  foldl (issue_step today body currentData) (Some []) components.

Definition storage_step (today : string) (body : record)
    (currentData : list record) (newItems : list record) (c : component)
  : list record :=
  newItems ++ [storage_item (generateComponentId (currentData ++ newItems))
                            today body c].

Definition storage_items (today : string) (body : record)
    (currentData : list record) (components : list component) : list record :=
  foldl (storage_step today body currentData) [] components.

(** POST /api/issue.  [components] is [JSON.parse(req.body.components)],
    [None] when parsing throws. *)
Definition post_issue (e : env) (body : record)
    (components : option (list component)) (wb : workbook)
  : response * workbook :=
  let '(currentData, wb1) := loadExcelSync e wb in
  match components with
  | None => (Failure 500 "Failed to process component issue: ", wb1)
  | Some [] => (Failure 400 "At least one component is required", wb1)
  | Some components =>
      match issue_items (today e) body currentData components with
      | None => (Failure 500 "Failed to process component issue: ", wb1)
      | Some newItems =>
          let updatedData := currentData ++ newItems in
          let '(success, wb2) := saveToExcelSync e updatedData wb1 in
          if success
          then (Ok200 (Data ("Successfully submitted "
                               +:+ count_text (length components)
                               +:+ " components for approval") updatedData), wb2)
          else (Failure 500 "Failed to save issue data", wb2)
      end
  end.

(** POST /api/storage.  [components] is [req.body.components], [None] when
    the field is missing. *)
Definition post_storage (e : env) (body : record)
    (components : option (list component)) (wb : workbook)
  : response * workbook :=
  let '(currentData, wb1) := loadExcelSync e wb in
  match components with
  | None | Some [] => (Failure 400 "At least one component is required", wb1)
  | Some components =>
      let newItems := storage_items (today e) body currentData components in
      let updatedData := currentData ++ newItems in
      let '(success, wb2) := saveToExcelSync e updatedData wb1 in
      if success
      then (Ok200 (Data ("Successfully submitted "
                           +:+ count_text (length components)
                           +:+ " components for storage approval") updatedData), wb2)
      else (Failure 500 "Failed to save storage data", wb2)
  end.

(** ** Workflow engine: approve and reject *)

(** The search loop of the approve and reject handlers, from index [i] on.
    [requestId.toString()] is evaluated once per record and throws on
    [undefined] and [null]: [None]. *)
Fixpoint matching_from (i : nat) (requestId : value) (data : list record)
  : option (list nat) :=
  match data with
  | [] => Some []
  | item :: rest =>
      reqId ← js_toString requestId;
      later ← matching_from (S i) requestId rest;
      Some (if record_matches item reqId then i :: later else later)
  end.

Definition matchingIndices (requestId : value) (currentData : list record)
  : option (list nat) :=
  matching_from 0 requestId currentData.

Definition approve_item (today : string) (approvalData : record)
    (item : record) : record :=
  assign "Approval Signature" (get approvalData "signature")
    (assign "Approval Date" (VStr today)
       (assign "Approved By" (get approvalData "approvedBy")
          (assign "Status" (VStr "Approved") item))).

Definition reject_item (today : string) (rejectionReason : value)
    (item : record) : record :=
  assign "Rejection Date" (VStr today)
    (assign "Rejection Reason" rejectionReason
       (assign "Status" (VStr "Rejected") item)).

(** [indices.forEach(index => { currentData[index][..] = .. })] *)
Definition update_at (f : record → record) (indices : list nat)
    (currentData : list record) : list record :=
  foldl (fun data index => alter f index data) currentData indices.

(** POST /api/requests/approve.  [approvalData] is [None] when the body
    has no such object: reading [approvalData.approvedBy] throws before the
    store is touched. *)
Definition post_approve (e : env) (requestId : value)
    (approvalData : option record) (wb : workbook) : response * workbook :=
  match approvalData with
  | None => (Failure 500 "Server error: ", wb)
  | Some approvalData =>
      let '(currentData, wb1) := loadExcelSync e wb in
      match matchingIndices requestId currentData with
      | None => (Failure 500 "Server error: ", wb1)
      | Some [] => (Failure 404 "Request not found in database", wb1)
      | Some indices =>
          let updated := update_at (approve_item (today e) approvalData)
                                   indices currentData in
          let updatedCount := length indices in
          let '(success, wb2) := saveToExcelSync e updated wb1 in
          if success
          then (Ok200 (ItemsUpdated ("Request approved successfully! "
                                       +:+ count_text updatedCount
                                       +:+ " item(s) updated.") updatedCount), wb2)
          else (Failure 500 "Failed to save approval to Excel file", wb2)
      end
  end.

(** POST /api/requests/reject *)
Definition post_reject (e : env) (requestId rejectionReason : value)
    (wb : workbook) : response * workbook :=
  let '(currentData, wb1) := loadExcelSync e wb in
  match matchingIndices requestId currentData with
  | None => (Failure 500 "Server error: ", wb1)
  | Some [] => (Failure 404 "Request not found in database", wb1)
  | Some indices =>
      let updated := update_at (reject_item (today e) rejectionReason)
                               indices currentData in
      let updatedCount := length indices in
      let '(success, wb2) := saveToExcelSync e updated wb1 in
      if success
      then (Ok200 (ItemsUpdated ("Request rejected successfully! "
                                   +:+ count_text updatedCount
                                   +:+ " item(s) updated.") updatedCount), wb2)
      else (Failure 500 "Failed to save rejection to Excel file", wb2)
  end.

(** ** Workflow engine: delete and update *)

(** [currentData.filter(item => !(.. === id || ..))] *)
Definition remaining (identifier : string) (currentData : list record)
  : list record :=
  List.filter (fun item => negb (record_matches item identifier)) currentData.

(** DELETE /api/components/:identifier *)
Definition delete_component (e : env) (identifier : string) (wb : workbook)
  : response * workbook :=
  let '(currentData, wb1) := loadExcelSync e wb in
  let remainingData := remaining identifier currentData in
  let deletedCount := length currentData - length remainingData in
  if (deletedCount =? 0)%nat
  then (Failure 404 "Component not found", wb1)
  else
    let '(success, wb2) := saveToExcelSync e remainingData wb1 in
    if success
    then (Ok200 (ItemsDeleted ("Successfully deleted "
                                 +:+ count_text deletedCount
                                 +:+ " component(s)") deletedCount), wb2)
    else (Failure 500 "Failed to save changes to Excel file", wb2).

(** [req.body.components] as PUT /api/components/:identifier sees it: a
    string (the issue form; [None] when [JSON.parse] throws), an array (the
    storage form) or anything else. *)
Inductive update_payload :=
  | IssueForm (components : option (list component))
  | StorageForm (components : list component)
  | InvalidForm.

(** The record literal of the issue branch of the update handler. *)
Definition update_issue_item (id today : string) (body : record)
    (c : component) (pdfFileName : value) : record :=
  let component := fields c in
  obj [ ("Component ID", VStr id);
        ("Name", js_or (get component "partDescription") (VStr "Issued Component"));
        ("Part No", get component "partNo");
        ("Part Description", get component "partDescription");
        ("Type", VStr "Issued Component");
        ("Status", VStr "Pending");
        ("Date", VStr today);
        ("Issued To", get body "issueTo");
        ("Issue No", get body "issueNo");
        ("Issue Date", js_or (get component "issueDate") (get body "issueDate"));
        ("Request Text", get body "requestText");
        ("Issue For", get body "issueFor");
        ("System Manager", get body "systemManager");
        ("Serial No", get component "serialNo");
        ("S.No as per SO", get component "snoSO");
        ("Manufacturer", get component "manufacturer");
        ("Quality Grade", get component "qualityGrade");
        ("Sub System", get component "subSystem");
        ("Quantity Each", get component "quantityEach");
        ("Total Quantity", get component "totalQuantity");
        ("SO No", get component "soNo");
        ("SO PDF", pdfFileName);
        ("Storage Temperature", get component "storageTemp");
        ("Submitted By", get body "submittedBy") ].

(** The attachment step of the update handler. *)
Definition update_pdf (c : component) : option value :=
  match upload c with
  | Uploaded name => Some (VStr ("/uploads/" +:+ name))
  | UploadFails => None
  | NoUpload =>
      Some (if truthy (get (fields c) "existingPdf")
            then get (fields c) "existingPdf" else VNull)
  end.

Definition update_issue_step (today : string) (body : record)
    (remainingData : list record) (acc : option (list record)) (c : component)
  : option (list record) :=
  newItems ← acc;
  pdfFileName ← update_pdf c;
  Some (newItems ++ [update_issue_item
                       (generateComponentId (remainingData ++ newItems))
                       today body c pdfFileName]).

Definition update_issue_items (today : string) (body : record)
    (remainingData : list record) (components : list component)
  : option (list record) :=
  foldl (update_issue_step today body remainingData) (Some []) components.

(** PUT /api/components/:identifier *)
Definition put_component (e : env) (identifier : string) (body : record)
    (payload : update_payload) (wb : workbook) : response * workbook :=
  let '(currentData, wb1) := loadExcelSync e wb in
  let finish (remainingData newItems : list record) :=
    let updatedData := remainingData ++ newItems in
    let '(success, wb2) := saveToExcelSync e updatedData wb1 in
    if success
    then (Ok200 (Data ("Successfully updated " +:+ count_text (length newItems)
                         +:+ " component(s)") updatedData), wb2)
    else (Failure 500 "Failed to save updated data", wb2) in
  match payload with
  | InvalidForm => (Failure 400 "Invalid request format", wb1)
  | IssueForm None => (Failure 500 "Failed to update component: ", wb1)
  | IssueForm (Some components) =>
      let remainingData := remaining identifier currentData in
      match update_issue_items (today e) body remainingData components with
      | None => (Failure 500 "Failed to update component: ", wb1)
      | Some newItems => finish remainingData newItems
      end
  | StorageForm components =>
      let remainingData := remaining identifier currentData in
      finish remainingData
             (storage_items (today e) body remainingData components)
  end.

(** ** Sequences of requests *)

Inductive request :=
  | Issue (body : record) (components : option (list component))
  | Storage (body : record) (components : option (list component))
  | Approve (requestId : value) (approvalData : option record)
  | Reject (requestId rejectionReason : value)
  | Delete (identifier : string)
  | Update (identifier : string) (body : record) (payload : update_payload).

Definition handle (e : env) (req : request) (wb : workbook)
  : response * workbook :=
  match req with
  | Issue body components => post_issue e body components wb
  | Storage body components => post_storage e body components wb
  | Approve requestId approvalData => post_approve e requestId approvalData wb
  | Reject requestId rejectionReason => post_reject e requestId rejectionReason wb
  | Delete identifier => delete_component e identifier wb
  | Update identifier body payload => put_component e identifier body payload wb
  end.

(** The collection a request loads. *)
Definition collection (wb : workbook) : list record :=
  match wb with
  | Sheet rows => List.filter keep_row rows
  | _ => []
  end.

(** The collection to which a request appends: what it loaded, less the
    records an update drops. *)
Definition base_of (req : request) (wb : workbook) : list record :=
  match req with
  | Update identifier _ _ => remaining identifier (collection wb)
  | _ => collection wb
  end.

(** The records a request created, read off its response. *)
Definition created (e : env) (req : request) (wb : workbook) : list record :=
  match (handle e req wb).1 with
  | Ok200 (Data _ data) => drop (length (base_of req wb)) data
  | _ => []
  end.

(** The [Component ID]s a request minted. *)
Definition minted (e : env) (req : request) (wb : workbook) : list value :=
  map (fun item => get item "Component ID") (created e req wb).

(** The identifiers minted by each request of a sequence, run one after
    another against the evolving workbook. *)
Fixpoint run (steps : list (env * request)) (wb : workbook) : list (list value) :=
  match steps with
  | [] => []
  | (e, req) :: rest => minted e req wb :: run rest (handle e req wb).2
  end.


Definition component_ids (data : list record) : list value :=
  map (fun item => get item "Component ID") data.

(** ** Notions used in the statements *)

(** *** Text and numerals *)




(** The numeral of an identifier: [n.toString().padStart(3, '0')]. *)
Definition numeral (n : N) : string := padStart 3 "0" (N_toString n).


(** *** Identifiers *)

(** The largest numeric suffix of a collection, 0 when there is none. *)
Definition maxId (data : list record) : N := Math_max0 (existingIds data).

(** The identifier that carries the counter value [n]. *)
Definition cmp_id (n : N) : string := "CMP-" +:+ numeral n.


(** The common shape of the three minting loops: each turn builds one
    record from an identifier generated over the collection extended with
    the items of the batch built so far. *)
Definition mint_step (mk : string → component → option record)
    (base : list record) (acc : option (list record)) (c : component)
  : option (list record) :=
  newItems ← acc;
  item ← mk (generateComponentId (base ++ newItems)) c;
  Some (newItems ++ [item]).


(** *** Sequences *)






(** *** Matching, stamping, grouping *)

(** The three keys on which a record is looked up. *)
Definition key_fields : list string := ["Issue No"; "Storage No"; "Component ID"].

(** A field that is absent ([undefined], [null]) or the empty string. *)
Definition absent_or_empty (v : value) : bool :=
  match v with
  | VUndef | VNull => true
  | VStr s => String.eqb s ""
  | _ => false
  end.

(** The matcher as the specification words it: some key field is present,
    non-empty, and its stringification is the identifier. *)
Definition spec_matches (item : record) (id : string) : Prop :=
  ∃ k, k ∈ key_fields
       ∧ absent_or_empty (get item k) = false
       ∧ js_toString (get item k) = Some id.

(** The number of records that match [id]. *)
Definition count_matching (id : string) (data : list record) : nat :=
  length (List.filter (fun item => record_matches item id) data).

(** A collection in which [f] has been applied to the records that match
    [id], the others being left as they are. *)
Definition stamp_matching (f : record → record) (id : string)
    (data : list record) : list record :=
  map (fun item => if record_matches item id then f item else item) data.

(** The fields written by an approval, and by a rejection. *)
Definition approval_fields : list string :=
  ["Status"; "Approved By"; "Approval Date"; "Approval Signature"].

Definition rejection_fields : list string :=
  ["Status"; "Rejection Reason"; "Rejection Date"].

(** The line items of a well-formed update payload. *)
Definition batch_of (payload : update_payload) : option (list component) :=
  match payload with
  | IssueForm (Some components) => Some components
  | StorageForm components => Some components
  | _ => None
  end.


(** [item] is a pending record whose group key stringifies to [k]. *)
Definition candidate (k : string) (item : record) : bool :=
  is_pending item && truthy (groupKey item)
  && String.eqb (js_String (groupKey item)) k.

(** *** Sample data *)

(** A day on which the disk can be written. *)
Definition sample_env : env := {| today := "2024-05-17"; disk_ok := true |}.

Definition sample_line : component :=
  {| fields := obj [("partNo", VStr "P-100"); ("partDescription", VStr "Valve")];
     upload := NoUpload |}.

Definition sample_approval : record :=
  obj [("approvedBy", VStr "admin"); ("signature", VStr "A. Admin")].

(** A stored collection: one stored record, then the two records of issue
    ISS-1. *)
Definition sample_rows : list record :=
  [ obj [("Component ID", VStr "CMP-001"); ("Part No", VStr "P-7");
         ("Storage No", VStr "STO-9"); ("Status", VStr "Approved")];
    obj [("Component ID", VStr "CMP-002"); ("Part No", VStr "P-8");
         ("Issue No", VStr "ISS-1"); ("Status", VStr "Pending")];
    obj [("Component ID", VStr "CMP-003"); ("Part No", VStr "P-9");
         ("Issue No", VStr "ISS-1"); ("Status", VStr "Pending")] ].


(** The three records of the grouping example. *)
Definition grouping_example : list record :=
  [ obj [("Issue No", VStr "A"); ("Status", VStr "Pending")];
    obj [("Issue No", VStr "A"); ("Status", VStr "Pending")];
    obj [("Issue No", VStr "B"); ("Status", VStr "Approved")] ].

(** A stored record whose status is written in lower case. *)
Definition lowercase_pending : record :=
  obj [("Component ID", VStr "CMP-001"); ("Issue No", VStr "A");
       ("Status", VStr "pending")].

(** ** Notions used in the further properties *)


(** The line items a request carries. *)
Definition line_items (req : request) : list component :=
  match req with
  | Issue _ (Some components) | Storage _ (Some components) => components
  | Update _ _ payload => default [] (batch_of payload)
  | _ => []
  end.

(** The [Type] a request gives to the records it creates. *)
Definition form_type (req : request) : string :=
  match req with
  | Storage _ _ | Update _ _ (StorageForm _) => "Stored Component"
  | _ => "Issued Component"
  end.

(** The transaction key a request gives to the records it creates: the
    field and its value. *)
Definition transaction_field (req : request) : string * value :=
  match req with
  | Storage body _ | Update _ body (StorageForm _) =>
      ("Storage No", get body "storageNo")
  | Issue body _ | Update _ body _ => ("Issue No", get body "issueNo")
  | _ => ("Issue No", VUndef)
  end.

(** Some attachment step of the batch throws. *)
Definition some_upload_fails (components : list component) : Prop :=
  Exists (fun c => upload c = UploadFails) components.

(** The attachment step of [c] throws. *)
Definition upload_fails (c : component) : bool :=
  match upload c with UploadFails => true | _ => false end.

(** What a created record takes from its line item and from the request. *)
Definition created_from (e : env) (req : request) (c : component)
    (item : record) : Prop :=
  get item "Status" = VStr "Pending"
  ∧ get item "Type" = VStr (form_type req)
  ∧ get item "Date" = VStr (today e)
  ∧ get item (transaction_field req).1 = (transaction_field req).2
  ∧ (truthy (transaction_field req).2 = true →
     groupKey item = (transaction_field req).2)
  ∧ get item "Part No" = get (fields c) "partNo"
  ∧ get item "Part Description" = get (fields c) "partDescription"
  ∧ get item "Serial No" = get (fields c) "serialNo".

(** A line item whose attachment step throws. *)
Definition failing_line : component :=
  {| fields := obj [("partNo", VStr "P-200")]; upload := UploadFails |}.









(** ** User accounts: users.json and admin_users.json *)

(** What a users file holds: no text that [JSON.parse] accepts (the file is
    absent or malformed), a JSON value that is not an array, or an array of
    user objects. *)
Inductive users_file :=
  | Unreadable
  | NotArray
  | Users (users : list record).

Record accounts := { users_json : users_file; admin_users_json : users_file }.

(** What a request reads from its surroundings: [Date.now()],
    [new Date().toISOString()], [Math.random().toString(36).substr(2)], and
    whether [writeFile] goes through. *)
Record moment :=
  { now : N; isoString : string; random36 : string; can_write : bool }.

Definition file_of (isAdmin : bool) (a : accounts) : users_file :=
  if isAdmin then admin_users_json a else users_json a.

Definition with_file (isAdmin : bool) (f : users_file) (a : accounts) : accounts :=
  if isAdmin
  then {| users_json := users_json a; admin_users_json := f |}
  else {| users_json := f; admin_users_json := admin_users_json a |}.

(** The parsed content; [None] stands for a value that is not an array. *)
Definition loadUsers (isAdmin : bool) (a : accounts) : option (list record) :=
  match file_of isAdmin a with
  | Unreadable => Some []
  | NotArray => None
  | Users users => Some users
  end.

(** An object as [JSON.stringify] writes it and [JSON.parse] reads it
    back: the properties that hold [undefined] are left out. *)
Definition json_row (user : record) : record :=
  filter (fun kv => kv.2 ≠ VUndef) user.

Definition saveUsers (m : moment) (users : list record) (isAdmin : bool)
    (a : accounts) : bool * accounts :=
  if can_write m
  then (true, with_file isAdmin (Users (map json_row users)) a)
  else (false, a).

(** [v.toLowerCase()]; [None] stands for the TypeError raised on a value
    that is not a string. *)
Definition lower_of (v : value) : option string :=
  match v with
  | VStr s => Some (toLowerCase s)
  | _ => None
  end.

(** [a === b] on scalars. *)
Definition strict_eq (a b : value) : bool := bool_decide (a = b).

(** [users.some(user => user.username.toLowerCase() === username.toLowerCase())];
    [None] stands for a TypeError raised by the callback. *)
Fixpoint some_username (username : value) (users : list record) : option bool :=
  match users with
  | [] => Some false
  | user :: rest =>
      match lower_of (get user "username"), lower_of username with
      | Some stored, Some given =>
          if String.eqb stored given then Some true
          else some_username username rest
      | _, _ => None
      end
  end.

Definition usernameExists (username : value) (isAdmin : bool) (a : accounts)
  : option bool :=
  match loadUsers isAdmin a with
  | Some users => some_username username users
  | None => None
  end.

(** [users.find(user => user.username.toLowerCase() === username.toLowerCase()
    && user.password === password)]; the outer [None] stands for a
    TypeError. *)
Fixpoint find_user (username password : value) (users : list record)
  : option (option record) :=
  match users with
  | [] => Some None
  | user :: rest =>
      match lower_of (get user "username"), lower_of username with
      | Some stored, Some given =>
          if String.eqb stored given && strict_eq (get user "password") password
          then Some (Some user)
          else find_user username password rest
      | _, _ => None
      end
  end.

Definition findUser (username password : value) (isAdmin : bool) (a : accounts)
  : option (option record) :=
  match loadUsers isAdmin a with
  | Some users => find_user username password users
  | None => None
  end.

Inductive registration :=
  | Registered (message : string) (user : record)
  | NotRegistered (message : string).

Definition newUser (m : moment) (username password : value) (isAdmin : bool)
  : record :=
  obj [("id", VStr ((if isAdmin then "ADMIN" else "USER") +:+ "-"
                      +:+ N_toString (now m)));
       ("username", username);
       ("password", password);
       ("createdAt", VStr (isoString m));
       ("role", VStr (if isAdmin then "admin" else "user"))].

Definition registerUser (m : moment) (username password : value) (isAdmin : bool)
    (a : accounts) : registration * accounts :=
  match loadUsers isAdmin a, usernameExists username isAdmin a with
  | Some users, Some false =>
      let user := newUser m username password isAdmin in
      let '(saved, a') := saveUsers m (users ++ [user]) isAdmin a in
      if saved
      then (Registered "User registered successfully"
              (obj [("id", get user "id"); ("username", get user "username");
                    ("role", get user "role")]), a')
      else (NotRegistered "Failed to save user", a')
  | Some _, Some true => (NotRegistered "Username already exists", a)
  | _, _ => (NotRegistered "Registration failed", a)
  end.

(** What an account endpoint answers: [{success: false, message}] under a
    status, [{success: true, message, user}], or nothing when the handler's
    promise is rejected before a response is sent. *)
Inductive auth_reply :=
  | AuthFailure (status : Z) (message : string)
  | AuthSuccess (message : string) (user : record)
  | NoReply.

(** [v.length < n] for a truthy [v]: numbers and booleans have no
    [length], and [undefined < n] is false. *)
Definition shorter_than (v : value) (n : nat) : bool :=
  match v with
  | VStr s => (String.length s <? n)%nat
  | _ => false
  end.

(** POST /api/signup and POST /api/admin/signup *)
Definition post_signup (m : moment) (isAdmin : bool) (body : record)
    (a : accounts) : auth_reply * accounts :=
  let username := get body "username" in
  let password := get body "password" in
  if negb (truthy username) || negb (truthy password)
  then (AuthFailure 400 "Username and password are required", a)
  else if shorter_than username 3
  then (AuthFailure 400 "Username must be at least 3 characters long", a)
  else if shorter_than password 4
  then (AuthFailure 400 "Password must be at least 4 characters long", a)
  else
    match registerUser m username password isAdmin a with
    | (Registered _ user, a') =>
        (AuthSuccess (if isAdmin then "Admin signup successful! Please login."
                      else "Signup successful! Please login.") user, a')
    | (NotRegistered message, a') => (AuthFailure 400 message, a')
    end.

(** POST /api/login and POST /api/admin/login *)
Definition post_login (m : moment) (isAdmin : bool) (body : record)
    (a : accounts) : auth_reply :=
  let username := get body "username" in
  let password := get body "password" in
  if negb (truthy username) || negb (truthy password)
  then AuthFailure 400 "Username and password are required"
  else
    match findUser username password isAdmin a with
    | Some (Some user) =>
        AuthSuccess (if isAdmin then "Admin login successful!" else "Login successful!")
          (obj [("id", get user "id");
                ("name", get user "username");
                ("role", VStr (if isAdmin then "admin" else "user"));
                ("token", VStr ((if isAdmin then "admin-token-" else "user-token-")
                                  +:+ random36 m))])
    | Some None =>
        AuthFailure 401 (if isAdmin then "Invalid admin credentials"
                         else "Invalid username or password")
    | None => NoReply
    end.

Inductive account_request :=
  | Signup (isAdmin : bool) (body : record)
  | Login (isAdmin : bool) (body : record).

Definition account_handle (m : moment) (req : account_request) (a : accounts)
  : auth_reply * accounts :=
  match req with
  | Signup isAdmin body => post_signup m isAdmin body a
  | Login isAdmin body => (post_login m isAdmin body a, a)
  end.

Definition run_accounts (steps : list (moment * account_request)) (a : accounts)
  : accounts :=
  foldl (fun s step => (account_handle step.1 step.2 s).2) a steps.

(** The users a file holds, as the handlers load them. *)
Definition stored_users (isAdmin : bool) (a : accounts) : list record :=
  default [] (loadUsers isAdmin a).

(** The stored names, as the comparisons see them. *)
Definition name_keys (isAdmin : bool) (a : accounts) : list (option string) :=
  map (fun user => lower_of (get user "username")) (stored_users isAdmin a).

Definition credentials (username password : value) : record :=
  obj [("username", username); ("password", password)].

Definition sample_moment : moment :=
  {| now := 1715940000000; isoString := "2024-05-17T10:00:00.000Z";
     random36 := "k3x9"; can_write := true |}.

Definition sample_accounts : accounts :=
  {| users_json :=
       Users [obj [("id", VStr "USER-1"); ("username", VStr "Asha");
                   ("password", VStr "s3cret"); ("role", VStr "user")]];
     admin_users_json := Unreadable |}.

(** ** Archive: the names of the uploaded files *)

(** [s.replace(/\s+/g, '-')]: every maximal run of white space becomes one
    hyphen; [in_run] tells that the previous character was white space. *)
Fixpoint replace_spaces_from (in_run : bool) (s : string) : string :=
  match s with
  | String c s' =>
      if is_space c
      then if in_run then replace_spaces_from true s'
           else String "-" (replace_spaces_from true s')
      else String c (replace_spaces_from false s')
  | EmptyString => EmptyString
  end.

Definition replace_spaces (s : string) : string := replace_spaces_from false s.

(** The class [[a-zA-Z0-9-]]. *)
Definition is_name_char (c : ascii) : bool :=
  let n := nat_of_ascii c in
  ((97 <=? n)%nat && (n <=? 122)%nat) || ((65 <=? n)%nat && (n <=? 90)%nat)
  || ((48 <=? n)%nat && (n <=? 57)%nat) || (n =? 45)%nat.

(** [s.replace(/[^a-zA-Z0-9-]/g, '')] *)
Fixpoint keep_name_chars (s : string) : string :=
  match s with
  | String c s' =>
      if is_name_char c then String c (keep_name_chars s') else keep_name_chars s'
  | EmptyString => EmptyString
  end.

(** [s.replace(/\s+/g, '-').replace(/[^a-zA-Z0-9-]/g, '')] *)
Definition sanitized (s : string) : string := keep_name_chars (replace_spaces s).

(** [s.replace(/-/g, ' ')] *)
Fixpoint hyphens_to_spaces (s : string) : string :=
  match s with
  | String c s' =>
      String (if Ascii.eqb c "-" then " "%char else c) (hyphens_to_spaces s')
  | EmptyString => EmptyString
  end.

(** [s.split(sep)] for a separator of one character. *)
Fixpoint split_on (sep : ascii) (s : string) : list string :=
  match s with
  | String c s' =>
      if Ascii.eqb c sep then EmptyString :: split_on sep s'
      else match split_on sep s' with
           | piece :: pieces => String c piece :: pieces
           | [] => [String c EmptyString]
           end
  | EmptyString => [EmptyString]
  end.

(** [parts.join(sep)] *)
Fixpoint join (sep : string) (parts : list string) : string :=
  match parts with
  | [] => EmptyString
  | part :: rest =>
      match rest with
      | [] => part
      | _ => part +:+ sep +:+ join sep rest
      end
  end.

(** [parts.indexOf(x)]; [None] stands for -1. *)
Fixpoint indexOf (x : string) (parts : list string) : option nat :=
  match parts with
  | [] => None
  | part :: rest => if String.eqb part x then Some 0%nat else S <$> indexOf x rest
  end.

(** The entry of one file in GET /api/archive/files, from its name and
    what [stat] tells of it. *)
Definition file_details (filename : string) (size : Z) (birthtime : string)
  : record :=
  let parts := split_on "_" filename in
  let scientist :=
    match parts !! 1%nat with
    | Some part => if String.eqb part "" then "Unknown" else part
    | None => "Unknown"
    end in
  let description :=
    match indexOf "desc" parts with
    | Some descIndex =>
        hyphens_to_spaces
          (hd "" (split_on "." (join "_" (drop (S descIndex) parts))))
    | None => "No description"
    end in
  obj [("id", VStr ("FILE-" +:+ hd "" (split_on "-" filename)));
       ("name", VStr filename);
       ("scientist", VStr (hyphens_to_spaces scientist));
       ("path", VStr ("/uploads/" +:+ filename));
       ("size", VNum size);
       ("uploadDate", VStr birthtime);
       ("description", VStr description)].

(** What an upload meets: [Date.now()], whether the upload directory can
    be ensured, and whether the file can be moved into it. *)
Record upload_env := { timestamp : N; dir_ok : bool; mv_ok : bool }.

Inductive upload_reply :=
  | UploadError (status : Z) (error : string)
  | Archived (filename : string) (scientist : value) (path : string).

(** POST /api/archive/upload.  [file] is [path.extname(file.name)] of the
    uploaded file when there is one; a [replace] on a value that is not a
    string raises the TypeError that the handler answers with 500. *)
Definition archive_upload (u : upload_env) (file : option string) (body : record)
  : upload_reply :=
  if dir_ok u then
    match file with
    | None => UploadError 400 "No file uploaded"
    | Some fileExt =>
        let scientistName := js_or (get body "scientistName") (VStr "Unknown") in
        let description := js_or (get body "description") (VStr "") in
        match scientistName, description with
        | VStr name, VStr text =>
            let newFileName :=
              N_toString (timestamp u) +:+ "_" +:+ sanitized name +:+ "_desc_"
                +:+ sanitized text +:+ fileExt in
            if mv_ok u
            then Archived newFileName scientistName ("/uploads/" +:+ newFileName)
            else UploadError 500 "Failed to upload file"
        | _, _ => UploadError 500 "Failed to upload file"
        end
    end
  else UploadError 500 "Failed to upload file".

(** [path.extname] returns the empty string or a string that starts with
    a dot. *)
Definition is_extension (fileExt : string) : Prop :=
  fileExt = "" ∨ ∃ rest, fileExt = String "." rest.

Fixpoint has_char (c : ascii) (s : string) : bool :=
  match s with
  | String c' s' => Ascii.eqb c' c || has_char c s'
  | EmptyString => false
  end.

(** Letters and digits, separated by single blanks. *)
Fixpoint plain_from (after_blank : bool) (s : string) : bool :=
  match s with
  | String c s' =>
      if Ascii.eqb c " " then negb after_blank && plain_from true s'
      else is_name_char c && negb (Ascii.eqb c "-") && plain_from false s'
  | EmptyString => true
  end.

Definition plain (s : string) : bool := plain_from false s.

Definition sample_upload_env : upload_env :=
  {| timestamp := 1715940000000; dir_ok := true; mv_ok := true |}.

Definition sample_upload_body : record :=
  obj [("scientistName", VStr "Dr Meera Nair"); ("description", VStr "Test report 7")].

(** * Properties *)

(** ** Fields *)

Lemma get_assign_eq k v item : get (assign k v item) k = v.
Proof. unfold get, assign. by rewrite lookup_insert_eq. Qed.

Lemma get_assign_ne k k' v item : k ≠ k' → get (assign k v item) k' = get item k'.
Proof. intros. unfold get, assign. by rewrite lookup_insert_ne. Qed.

Lemma get_empty k : get ∅ k = VUndef.
Proof. unfold get. by rewrite lookup_empty. Qed.

(** Reads a field of an object literal or of a stamped record. *)
Ltac get_field :=
  unfold obj; cbn [foldl fst snd];
  repeat first [ rewrite get_assign_eq
               | rewrite get_assign_ne by discriminate
               | rewrite get_empty ];
  try reflexivity.

(** ** Numerals *)

Lemma N_to_uint_not_Nil n : N.to_uint n ≠ Decimal.Nil.
Proof.
  intros H. pose proof (DecimalN.Unsigned.to_of (N.to_uint n)) as Hn.
  rewrite DecimalN.Unsigned.of_to, H in Hn. discriminate.
Qed.

Lemma N_toString_NilEmpty n :
  N_toString n = NilEmpty.string_of_uint (N.to_uint n).
Proof.
  unfold N_toString, NilZero.string_of_uint.
  pose proof (N_to_uint_not_Nil n). by destruct (N.to_uint n).
Qed.

Lemma parseInt_N_toString n : parseInt (N_toString n) = n.
Proof.
  unfold parseInt. rewrite N_toString_NilEmpty, NilEmpty.usu.
  apply DecimalN.Unsigned.of_to.
Qed.

Lemma N_toString_inj n m : N_toString n = N_toString m → n = m.
Proof.
  intros H. rewrite <- (parseInt_N_toString n), <- (parseInt_N_toString m).
  by rewrite H.
Qed.






Lemma parseInt_zeros k s : parseInt (repeat_char "0" k +:+ s) = parseInt s.
Proof.
  induction k as [|k IH]; [done|].
  rewrite <- IH. unfold parseInt. simpl.
  by destruct (NilEmpty.uint_of_string (repeat_char "0" k +:+ s)).
Qed.







Lemma parseInt_numeral n : parseInt (numeral n) = n.
Proof. unfold numeral, padStart. by rewrite parseInt_zeros, parseInt_N_toString. Qed.

Lemma numeral_inj n m : numeral n = numeral m → n = m.
Proof.
  intros H. rewrite <- (parseInt_numeral n), <- (parseInt_numeral m). by rewrite H.
Qed.







(** ** The pattern [/CMP-(\d+)/] *)

Lemma string_app_assoc (s t u : string) : (s +:+ t) +:+ u = s +:+ t +:+ u.
Proof. induction s; cbn [String.append]; congruence. Qed.












(** ** The identifier generator *)









Lemma cmp_id_inj n m : cmp_id n = cmp_id m → n = m.
Proof. unfold cmp_id. intros H. apply numeral_inj. by simplify_eq/=. Qed.


(** ** The minting loops *)

Lemma mint_step_None mk base comps : foldl (mint_step mk base) None comps = None.
Proof. induction comps; simpl; auto. Qed.


Section mint.
Context (mk : string → component → option record) (base : list record).
Hypothesis mk_id :
  ∀ id c item, mk id c = Some item → get item "Component ID" = VStr id.

End mint.

Lemma issue_items_mint today body base comps :
  issue_items today body base comps
  = foldl (mint_step (fun id c => pdf ← issue_pdf c;
                                  Some (issue_item id today body c pdf)) base)
          (Some []) comps.
Proof.
  unfold issue_items. generalize (Some (@nil record)).
  induction comps as [|c comps IH]; intros acc; [done|]. simpl.
  rewrite IH. f_equal. unfold issue_step, mint_step.
  destruct acc as [acc|]; [|done]. simpl. by destruct (issue_pdf c).
Qed.

Lemma update_issue_items_mint today body base comps :
  update_issue_items today body base comps
  = foldl (mint_step (fun id c => pdf ← update_pdf c;
                                  Some (update_issue_item id today body c pdf)) base)
          (Some []) comps.
Proof.
  unfold update_issue_items. generalize (Some (@nil record)).
  induction comps as [|c comps IH]; intros acc; [done|]. simpl.
  rewrite IH. f_equal. unfold update_issue_step, mint_step.
  destruct acc as [acc|]; [|done]. simpl. by destruct (update_pdf c).
Qed.

Lemma storage_items_mint today body base comps :
  Some (storage_items today body base comps)
  = foldl (mint_step (fun id c => Some (storage_item id today body c)) base)
          (Some []) comps.
Proof.
  unfold storage_items. generalize (@nil record).
  induction comps as [|c comps IH]; intros acc; [done|]. simpl. by rewrite IH.
Qed.







(** ** Blank text *)








(** ** The store *)



Lemma get_sheet_row item k :
  get (sheet_row item) k = if nullish (get item k) then VUndef else get item k.
Proof.
  unfold get, sheet_row. rewrite map_lookup_filter.
  destruct (item !! k) as [v|]; simpl; [|done].
  case_guard as Hv; simpl in *; [by rewrite Hv|].
  by destruct (nullish v).
Qed.




Lemma loadExcelSync_collection e wb : (loadExcelSync e wb).1 = collection wb.
Proof. by destruct wb. Qed.

Lemma collection_loaded e wb : collection (loadExcelSync e wb).2 = collection wb.
Proof. destruct wb; simpl; [by destruct (disk_ok e)|done..]. Qed.

Lemma loadExcelSync_keeps e wb :
  (loadExcelSync e wb).2 = wb
  ∨ (wb = Missing ∧ (loadExcelSync e wb).2 = Sheet []).
Proof. destruct wb; simpl; [destruct (disk_ok e)|..]; auto. Qed.


(** ** One request *)



(** Splits [loadExcelSync e wb] into the collection and the workbook it
    leaves behind. *)
Ltac load_store e wb cur wb1 Hwb1 :=
  let Hload := fresh "Hload" in
  let Hcur := fresh "Hcur" in
  pose proof (loadExcelSync_collection e wb) as Hcur;
  pose proof (collection_loaded e wb) as Hwb1;
  destruct (loadExcelSync e wb) as [cur wb1] eqn:Hload;
  cbn [fst snd] in Hcur, Hwb1; subst cur.




Lemma map_fmap {A B} (f : A → B) (l : list A) : map f l = f <$> l.
Proof. reflexivity. Qed.




(** ** Sequences of submits *)







Example run_sample :
  run [ (sample_env, Storage ∅ (Some [sample_line; sample_line]));
        (sample_env, Issue ∅ (Some [sample_line]));
        (sample_env, Approve (VStr "CMP-002") (Some sample_approval));
        (sample_env, Issue ∅ (Some []));
        ({| today := "2024-05-18"; disk_ok := false |},
         Storage ∅ (Some [sample_line]));
        (sample_env, Storage ∅ (Some [sample_line; sample_line])) ] Missing
  = [ [VStr "CMP-001"; VStr "CMP-002"]; [VStr "CMP-003"]; []; []; [];
      [VStr "CMP-004"; VStr "CMP-005"] ].
Proof. vm_compute. reflexivity. Qed.


(** ** Identifiers over sequences of requests *)




(** ** Update *)




Lemma elem_of_remaining identifier data item :
  item ∈ remaining identifier data
  ↔ item ∈ data ∧ record_matches item identifier = false.
Proof.
  unfold remaining. rewrite !list_elem_of_In, filter_In.
  by rewrite negb_true_iff.
Qed.



(** On the sample collection the identifiers of the update continue after
    CMP-001, the largest that remains, not after CMP-003. *)
Example renumbering_sample :
  component_ids
    (created sample_env
       (Update "ISS-1" ∅ (StorageForm [sample_line; sample_line; sample_line]))
       (Sheet sample_rows))
  = [VStr "CMP-002"; VStr "CMP-003"; VStr "CMP-004"]
  ∧ maxId (collection (Sheet sample_rows)) = 3%N.
Proof. split; vm_compute; reflexivity. Qed.

(** ** Approve and reject *)

Lemma update_at_matching f requestId id data : ∀ i indices pre,
  js_toString requestId = Some id →
  matching_from i requestId data = Some indices →
  length pre = i →
  update_at f indices (pre ++ data) = pre ++ stamp_matching f id data
  ∧ length indices = count_matching id data.
Proof.
  unfold count_matching.
  induction data as [|item data IH]; intros i indices pre Hid H Hpre; simpl in H.
  { simplify_eq. done. }
  rewrite Hid in H. simpl in H.
  destruct (matching_from (S i) requestId data) as [later|] eqn:Hlater; [|done].
  simpl in H. injection H as <-.
  specialize (IH (S i) later). simpl.
  destruct (record_matches item id) eqn:Hm.
  - destruct (IH (pre ++ [f item]) Hid Hlater) as [IH1 IH2].
    { rewrite length_app. simpl. lia. }
    split; [|simpl; by rewrite IH2].
    unfold update_at in *. simpl.
    replace i with (length pre + 0)%nat by lia.
    rewrite alter_app_r. simpl.
    rewrite <- !app_assoc in IH1. simpl in IH1.
    replace (length pre + 0)%nat with (length pre) by lia. exact IH1.
  - destruct (IH (pre ++ [item]) Hid Hlater) as [IH1 IH2].
    { rewrite length_app. simpl. lia. }
    split; [|by rewrite IH2].
    rewrite <- !app_assoc in IH1. exact IH1.
Qed.

Lemma matchingIndices_spec f requestId id data :
  js_toString requestId = Some id →
  ∃ indices, matchingIndices requestId data = Some indices
    ∧ update_at f indices data = stamp_matching f id data
    ∧ length indices = count_matching id data.
Proof.
  intros Hid. unfold matchingIndices.
  assert (∀ i, is_Some (matching_from i requestId data)) as Htotal.
  { induction data as [|item data IH]; intros i; simpl; [by eexists|].
    rewrite Hid. simpl. destruct (IH (S i)) as [later ->]. by eexists. }
  destruct (Htotal 0%nat) as [indices Hind]. exists indices. split; [done|].
  by apply (update_at_matching f requestId id data 0%nat indices []).
Qed.

Lemma count_matching_zero id data :
  count_matching id data = 0%nat ↔ ∀ item, item ∈ data → record_matches item id = false.
Proof.
  unfold count_matching. induction data as [|item data IH]; simpl.
  - split; [|done]. intros _ item Hin. inversion Hin.
  - destruct (record_matches item id) eqn:Hm; simpl.
    + split; [done|]. intros H. specialize (H item). rewrite Hm in H.
      discriminate H. by left.
    + rewrite IH. split.
      * intros H x [->|Hx]%elem_of_cons; auto.
      * intros H x Hx. apply H. by right.
Qed.

Lemma count_matching_pos id data item :
  item ∈ data → record_matches item id = true → count_matching id data ≠ 0%nat.
Proof.
  intros Hin Hm Hz. rewrite count_matching_zero in Hz.
  specialize (Hz _ Hin). congruence.
Qed.

Lemma stamp_matching_length f id data : length (stamp_matching f id data) = length data.
Proof. unfold stamp_matching. apply length_map. Qed.

Lemma stamp_matching_lookup f id data i item :
  data !! i = Some item →
  stamp_matching f id data !! i
  = Some (if record_matches item id then f item else item).
Proof.
  intros H. unfold stamp_matching. by rewrite map_fmap, list_lookup_fmap, H.
Qed.

(** The approve and the reject handler on an identifier that matches:
    every matching record is stamped, the result is written, the count of
    stamped records is reported. *)
Lemma post_approve_found e requestId id approvalData wb :
  js_toString requestId = Some id →
  count_matching id (collection wb) ≠ 0%nat →
  disk_ok e = true →
  ∃ message,
    post_approve e requestId (Some approvalData) wb
    = (Ok200 (ItemsUpdated message (count_matching id (collection wb))),
       Sheet (written_rows
                (stamp_matching (approve_item (today e) approvalData) id
                                (collection wb)))).
Proof.
  intros Hid Hcount Hdisk. unfold post_approve. load_store e wb cur wb1 Hwb1.
  destruct (matchingIndices_spec (approve_item (today e) approvalData)
              requestId id (collection wb) Hid) as (indices & -> & Hupd & Hlen).
  rewrite Hupd, Hlen. unfold saveToExcelSync. rewrite Hdisk. cbn [read_rows].
  destruct indices as [|i indices]; [simpl in Hlen; congruence|].
  by eexists.
Qed.

Lemma post_reject_found e requestId id reason wb :
  js_toString requestId = Some id →
  count_matching id (collection wb) ≠ 0%nat →
  disk_ok e = true →
  ∃ message,
    post_reject e requestId reason wb
    = (Ok200 (ItemsUpdated message (count_matching id (collection wb))),
       Sheet (written_rows
                (stamp_matching (reject_item (today e) reason) id
                                (collection wb)))).
Proof.
  intros Hid Hcount Hdisk. unfold post_reject. load_store e wb cur wb1 Hwb1.
  destruct (matchingIndices_spec (reject_item (today e) reason)
              requestId id (collection wb) Hid) as (indices & -> & Hupd & Hlen).
  rewrite Hupd, Hlen. unfold saveToExcelSync. rewrite Hdisk. cbn [read_rows].
  destruct indices as [|i indices]; [simpl in Hlen; congruence|].
  by eexists.
Qed.

Lemma approve_item_other today approvalData item k :
  k ∉ approval_fields → approve_item today approvalData item !! k = item !! k.
Proof.
  intros Hk. unfold approve_item, assign, approval_fields in *.
  rewrite !lookup_insert_ne; [done|set_solver..].
Qed.

Lemma reject_item_other today reason item k :
  k ∉ rejection_fields → reject_item today reason item !! k = item !! k.
Proof.
  intros Hk. unfold reject_item, assign, rejection_fields in *.
  rewrite !lookup_insert_ne; [done|set_solver..].
Qed.

Lemma approve_item_matches today approvalData item id :
  record_matches (approve_item today approvalData item) id = record_matches item id.
Proof. unfold record_matches, approve_item. by get_field. Qed.

Lemma reject_item_matches today reason item id :
  record_matches (reject_item today reason item) id = record_matches item id.
Proof. unfold record_matches, reject_item. by get_field. Qed.

(** C9.  Approve and reject stamp every record that matches the
    identifier, whatever its current [Status]: the handler has no guard on
    it, the record's [Status] and audit fields are overwritten, and the
    stamped record still matches the identifier for a later call. *)
Theorem approve_reject_overwrite (e : env) (requestId : value) (id : string)
    (approvalData : record) (reason : value) (wb : workbook)
    (i : nat) (item : record) :
  js_toString requestId = Some id →
  disk_ok e = true →
  collection wb !! i = Some item →
  record_matches item id = true →
  ∃ messageA messageR n approved rejected,
    post_approve e requestId (Some approvalData) wb
    = (Ok200 (ItemsUpdated messageA n), Sheet (written_rows approved))
    ∧ post_reject e requestId reason wb
      = (Ok200 (ItemsUpdated messageR n), Sheet (written_rows rejected))
    ∧ approved !! i = Some (approve_item (today e) approvalData item)
    ∧ rejected !! i = Some (reject_item (today e) reason item)
    ∧ get (approve_item (today e) approvalData item) "Status" = VStr "Approved"
    ∧ get (approve_item (today e) approvalData item) "Approved By"
      = get approvalData "approvedBy"
    ∧ get (approve_item (today e) approvalData item) "Approval Date" = VStr (today e)
    ∧ get (approve_item (today e) approvalData item) "Approval Signature"
      = get approvalData "signature"
    ∧ get (reject_item (today e) reason item) "Status" = VStr "Rejected"
    ∧ get (reject_item (today e) reason item) "Rejection Reason" = reason
    ∧ get (reject_item (today e) reason item) "Rejection Date" = VStr (today e)
    ∧ record_matches (approve_item (today e) approvalData item) id = true
    ∧ record_matches (reject_item (today e) reason item) id = true.
Proof.
  intros Hid Hdisk Hi Hm.
  assert (count_matching id (collection wb) ≠ 0%nat) as Hcount.
  { eapply count_matching_pos; [|exact Hm]. by eapply list_elem_of_lookup_2. }
  destruct (post_approve_found e requestId id approvalData wb Hid Hcount Hdisk)
    as [messageA HA].
  destruct (post_reject_found e requestId id reason wb Hid Hcount Hdisk)
    as [messageR HR].
  exists messageA, messageR, (count_matching id (collection wb)).
  eexists _, _. split; [exact HA|]. split; [exact HR|].
  rewrite !(stamp_matching_lookup _ _ _ _ _ Hi), Hm.
  rewrite approve_item_matches, reject_item_matches.
  unfold approve_item, reject_item. repeat split; by get_field.
Qed.

Lemma approve_reject_overwrite_witness :
  let item := obj [("Component ID", VStr "CMP-001"); ("Part No", VStr "P-7");
                   ("Storage No", VStr "STO-9"); ("Status", VStr "Approved")] in
  js_toString (VStr "STO-9") = Some "STO-9"
  ∧ disk_ok sample_env = true
  ∧ collection (Sheet sample_rows) !! 0%nat = Some item
  ∧ record_matches item "STO-9" = true
  ∧ ∃ messageA messageR n approved rejected,
      post_approve sample_env (VStr "STO-9") (Some sample_approval) (Sheet sample_rows)
      = (Ok200 (ItemsUpdated messageA n), Sheet (written_rows approved))
      ∧ post_reject sample_env (VStr "STO-9") (VStr "damaged") (Sheet sample_rows)
        = (Ok200 (ItemsUpdated messageR n), Sheet (written_rows rejected))
      ∧ approved !! 0%nat = Some (approve_item (today sample_env) sample_approval item)
      ∧ rejected !! 0%nat = Some (reject_item (today sample_env) (VStr "damaged") item)
      ∧ get (approve_item (today sample_env) sample_approval item) "Status"
        = VStr "Approved"
      ∧ get (approve_item (today sample_env) sample_approval item) "Approved By"
        = get sample_approval "approvedBy"
      ∧ get (approve_item (today sample_env) sample_approval item) "Approval Date"
        = VStr (today sample_env)
      ∧ get (approve_item (today sample_env) sample_approval item) "Approval Signature"
        = get sample_approval "signature"
      ∧ get (reject_item (today sample_env) (VStr "damaged") item) "Status"
        = VStr "Rejected"
      ∧ get (reject_item (today sample_env) (VStr "damaged") item) "Rejection Reason"
        = VStr "damaged"
      ∧ get (reject_item (today sample_env) (VStr "damaged") item) "Rejection Date"
        = VStr (today sample_env)
      ∧ record_matches (approve_item (today sample_env) sample_approval item) "STO-9"
        = true
      ∧ record_matches (reject_item (today sample_env) (VStr "damaged") item) "STO-9"
        = true.
Proof.
  intros item.
  split; [reflexivity|]. split; [reflexivity|].
  split; [vm_compute; reflexivity|]. split; [vm_compute; reflexivity|].
  apply (approve_reject_overwrite sample_env (VStr "STO-9") "STO-9" sample_approval
           (VStr "damaged") (Sheet sample_rows) 0%nat item);
    [reflexivity|reflexivity|vm_compute; reflexivity|vm_compute; reflexivity].
Defined.

(** C10.  An approve or a reject that matches at least one record hands
    to the store a collection of the same length as the loaded one, with
    the records in the same positions: a record that does not match the
    identifier is left as it is, a record that matches differs at most on
    [Status] and on the audit fields of the transition. *)
Theorem approve_reject_frame (e : env) (requestId : value) (id : string)
    (approvalData : record) (reason : value) (wb : workbook) :
  js_toString requestId = Some id →
  disk_ok e = true →
  (∃ item, item ∈ collection wb ∧ record_matches item id = true) →
  ∃ messageA messageR n approved rejected,
    post_approve e requestId (Some approvalData) wb
    = (Ok200 (ItemsUpdated messageA n), Sheet (written_rows approved))
    ∧ post_reject e requestId reason wb
      = (Ok200 (ItemsUpdated messageR n), Sheet (written_rows rejected))
    ∧ length approved = length (collection wb)
    ∧ length rejected = length (collection wb)
    ∧ ∀ i item, collection wb !! i = Some item →
        (record_matches item id = false →
           approved !! i = Some item ∧ rejected !! i = Some item)
        ∧ (record_matches item id = true →
             ∃ a r, approved !! i = Some a ∧ rejected !! i = Some r
               ∧ (∀ k, k ∉ approval_fields → a !! k = item !! k)
               ∧ (∀ k, k ∉ rejection_fields → r !! k = item !! k)).
Proof.
  intros Hid Hdisk (item & Hin & Hm).
  pose proof (count_matching_pos _ _ _ Hin Hm) as Hcount.
  destruct (post_approve_found e requestId id approvalData wb Hid Hcount Hdisk)
    as [messageA HA].
  destruct (post_reject_found e requestId id reason wb Hid Hcount Hdisk)
    as [messageR HR].
  exists messageA, messageR, (count_matching id (collection wb)).
  eexists _, _. split; [exact HA|]. split; [exact HR|].
  rewrite !stamp_matching_length. split; [done|]. split; [done|].
  intros i x Hx. rewrite !(stamp_matching_lookup _ _ _ _ _ Hx).
  split; intros ->; [done|].
  eexists _, _. split; [done|]. split; [done|].
  split; intros k Hk; [by apply approve_item_other|by apply reject_item_other].
Qed.

Lemma approve_reject_frame_witness :
  js_toString (VStr "ISS-1") = Some "ISS-1"
  ∧ disk_ok sample_env = true
  ∧ (∃ item, item ∈ collection (Sheet sample_rows) ∧ record_matches item "ISS-1" = true)
  ∧ ∃ messageA messageR n approved rejected,
      post_approve sample_env (VStr "ISS-1") (Some sample_approval) (Sheet sample_rows)
      = (Ok200 (ItemsUpdated messageA n), Sheet (written_rows approved))
      ∧ post_reject sample_env (VStr "ISS-1") (VStr "damaged") (Sheet sample_rows)
        = (Ok200 (ItemsUpdated messageR n), Sheet (written_rows rejected))
      ∧ length approved = length (collection (Sheet sample_rows))
      ∧ length rejected = length (collection (Sheet sample_rows))
      ∧ ∀ i item, collection (Sheet sample_rows) !! i = Some item →
          (record_matches item "ISS-1" = false →
             approved !! i = Some item ∧ rejected !! i = Some item)
          ∧ (record_matches item "ISS-1" = true →
               ∃ a r, approved !! i = Some a ∧ rejected !! i = Some r
                 ∧ (∀ k, k ∉ approval_fields → a !! k = item !! k)
                 ∧ (∀ k, k ∉ rejection_fields → r !! k = item !! k)).
Proof.
  assert (∃ item, item ∈ collection (Sheet sample_rows)
                  ∧ record_matches item "ISS-1" = true) as Hsome.
  { eexists. split; [right; left|]. vm_compute. reflexivity. }
  split; [reflexivity|]. split; [reflexivity|]. split; [exact Hsome|].
  apply (approve_reject_frame sample_env (VStr "ISS-1") "ISS-1" sample_approval
           (VStr "damaged") (Sheet sample_rows)); [reflexivity|reflexivity|exact Hsome].
Defined.

(** ** Not found *)

Lemma remaining_all identifier data :
  (∀ item, item ∈ data → record_matches item identifier = false) →
  remaining identifier data = data.
Proof.
  intros H. unfold remaining. induction data as [|item data IH]; [done|].
  simpl. rewrite (H item) by by left. simpl. f_equal. apply IH.
  intros x Hx. apply H. by right.
Qed.

(** C5.  When no loaded record matches the identifier, approve, reject
    and delete answer 404 and never call [saveToExcelSync]: the workbook is
    the one [loadExcelSync] leaves, that is the workbook itself (a missing
    file is created empty, as on any load), and the stored collection is
    unchanged. *)
Theorem not_found_leaves_store (e : env) (id : string) (requestId : value)
    (approvalData : record) (reason : value) (wb : workbook) :
  js_toString requestId = Some id →
  (∀ item, item ∈ collection wb → record_matches item id = false) →
  ∃ wb',
    post_approve e requestId (Some approvalData) wb
    = (Failure 404 "Request not found in database", wb')
    ∧ post_reject e requestId reason wb
      = (Failure 404 "Request not found in database", wb')
    ∧ delete_component e id wb = (Failure 404 "Component not found", wb')
    ∧ collection wb' = collection wb
    ∧ (wb' = wb ∨ (wb = Missing ∧ wb' = Sheet [])).
Proof.
  intros Hid Hnone. exists (loadExcelSync e wb).2.
  pose proof (loadExcelSync_keeps e wb) as Hkeep.
  apply count_matching_zero in Hnone as Hcount.
  unfold post_approve, post_reject, delete_component.
  load_store e wb cur wb1 Hwb1. cbn [snd] in *.
  destruct (matchingIndices_spec (approve_item (today e) approvalData)
              requestId id (collection wb) Hid) as (indices & -> & _ & Hlen).
  rewrite Hcount in Hlen. destruct indices; [|done].
  rewrite (remaining_all _ _ Hnone), Nat.sub_diag. simpl. done.
Qed.

Lemma not_found_leaves_store_witness :
  js_toString (VStr "ISS-404") = Some "ISS-404"
  ∧ (∀ item, item ∈ collection (Sheet sample_rows) →
             record_matches item "ISS-404" = false)
  ∧ ∃ wb',
      post_approve sample_env (VStr "ISS-404") (Some sample_approval) (Sheet sample_rows)
      = (Failure 404 "Request not found in database", wb')
      ∧ post_reject sample_env (VStr "ISS-404") (VStr "damaged") (Sheet sample_rows)
        = (Failure 404 "Request not found in database", wb')
      ∧ delete_component sample_env "ISS-404" (Sheet sample_rows)
        = (Failure 404 "Component not found", wb')
      ∧ collection wb' = collection (Sheet sample_rows)
      ∧ (wb' = Sheet sample_rows ∨ (Sheet sample_rows = Missing ∧ wb' = Sheet [])).
Proof.
  assert (∀ item, item ∈ collection (Sheet sample_rows) →
                  record_matches item "ISS-404" = false) as Hnone.
  { apply count_matching_zero. vm_compute. reflexivity. }
  split; [reflexivity|]. split; [exact Hnone|].
  apply (not_found_leaves_store sample_env "ISS-404" (VStr "ISS-404") sample_approval
           (VStr "damaged") (Sheet sample_rows)); [reflexivity|exact Hnone].
Defined.

(** ** The matcher *)

Lemma key_is_true v id :
  key_is v id = true ↔ truthy v = true ∧ js_toString v = Some id.
Proof.
  unfold key_is, key_string.
  destruct (truthy v); [|split; [discriminate|intros [? _]; discriminate]].
  destruct (js_toString v) as [s|];
    [|split; [discriminate|intros [_ ?]; discriminate]].
  rewrite String.eqb_eq. split; [by intros ->|by intros [_ [= ->]]].
Qed.

(** C6, as stated, fails: a record whose [Storage No] is the number 0
    has a key that is neither absent nor empty and stringifies to "0", yet
    the matcher does not match it against "0". *)
Lemma zero_key_not_matched :
  let item := obj [("Component ID", VStr "CMP-001"); ("Storage No", VNum 0)] in
  ¬ (record_matches item "0" = true ↔ spec_matches item "0").
Proof.
  intros item [_ H].
  assert (record_matches item "0" = true) as Hm; [|vm_compute in Hm; discriminate Hm].
  apply H. exists "Storage No". split; [unfold key_fields; set_solver|].
  split; vm_compute; reflexivity.
Qed.

(** C6, amended.  A record matches an identifier exactly when one of
    [Issue No], [Storage No], [Component ID] holds a truthy value whose
    stringification is the identifier, character for character (no case
    folding, no trimming); a field that is absent, [null], the empty
    string, the number 0 or [false] contributes no match. *)
Theorem record_matches_iff (item : record) (id : string) :
  record_matches item id = true
  ↔ ∃ k, k ∈ key_fields
         ∧ truthy (get item k) = true
         ∧ js_toString (get item k) = Some id.
Proof.
  unfold record_matches, key_fields. rewrite !orb_true_iff, !key_is_true. split.
  - intros [[H|H]|H]; eexists; (split; [|exact H]).
    + by left.
    + right. by left.
    + right. right. by left.
  - intros (k & Hk & H).
    apply elem_of_cons in Hk as [->|Hk]; [by left; left|].
    apply elem_of_cons in Hk as [->|Hk]; [by left; right|].
    apply elem_of_cons in Hk as [->|Hk]; [by right|]. inversion Hk.
Qed.

Example record_matches_exact :
  let item := obj [("Issue No", VStr "ISS-1"); ("Storage No", VNum 42)] in
  record_matches item "ISS-1" = true
  ∧ record_matches item "iss-1" = false
  ∧ record_matches item " ISS-1" = false
  ∧ record_matches item "42" = true
  ∧ record_matches item "undefined" = false.
Proof. repeat split; vm_compute; reflexivity. Qed.

(** ** The grouper *)

Lemma own_app o k' v k :
  own (o ++ [(k', v)]) k
  = match own o k with
    | Some r => Some r
    | None => if String.eqb k' k then Some v else None
    end.
Proof.
  induction o as [|[k0 r0] o IH]; simpl; [done|].
  by destruct (String.eqb k0 k).
Qed.

Lemma own_None o k : own o k = None ↔ k ∉ map fst o.
Proof.
  induction o as [|[k0 r0] o IH]; simpl.
  - split; [|done]. intros _ H. inversion H.
  - destruct (String.eqb k0 k) eqn:Hk.
    + apply String.eqb_eq in Hk as ->. split; [done|]. intros H. destruct H. by left.
    + apply String.eqb_neq in Hk. rewrite IH, not_elem_of_cons.
      split; [by intros ?|by intros [_ ?]].
Qed.

Lemma has_entry_false o k :
  has_entry o k = false ↔ own o k = None ∧ k ∉ object_prototype_keys.
Proof.
  unfold has_entry. destruct (own o k); [split; [discriminate|by intros [? _]]|].
  rewrite bool_decide_eq_false. split; [by intros ?|by intros [_ ?]].
Qed.

Lemma group_step_cases o item :
  (group_step o item = o ++ [(js_String (groupKey item), item)]
   ∧ is_pending item = true ∧ truthy (groupKey item) = true
   ∧ has_entry o (js_String (groupKey item)) = false)
  ∨ (group_step o item = o
     ∧ (is_pending item && truthy (groupKey item)
        && negb (has_entry o (js_String (groupKey item))) = false)).
Proof.
  unfold group_step.
  destruct (is_pending item), (truthy (groupKey item)),
    (has_entry o (js_String (groupKey item))); simpl; auto.
Qed.

Lemma own_foldl_group_step data : ∀ o k,
  own (foldl group_step o data) k
  = match own o k with
    | Some r => Some r
    | None => if bool_decide (k ∈ object_prototype_keys) then None
              else List.find (candidate k) data
    end.
Proof.
  induction data as [|item data IH]; intros o k; simpl.
  { destruct (own o k); [done|]. by case_bool_decide. }
  rewrite IH. unfold candidate.
  destruct (group_step_cases o item) as [(-> & Hp & Ht & He)|[-> Hskip]].
  - rewrite own_app, Hp, Ht. cbn [andb].
    destruct (own o k) eqn:Hown; [done|].
    apply has_entry_false in He as [He1 He2].
    destruct (String.eqb (js_String (groupKey item)) k) eqn:Hk.
    + apply String.eqb_eq in Hk. subst k. by rewrite bool_decide_eq_false_2.
    + done.
  - destruct (own o k) eqn:Hown; [done|].
    case_bool_decide as Hproto; [done|].
    destruct (is_pending item); [|done].
    destruct (truthy (groupKey item)); [|done]. cbn [andb] in *.
    destruct (String.eqb (js_String (groupKey item)) k) eqn:Hk; [|done].
    apply String.eqb_eq in Hk. subst k.
    apply negb_false_iff in Hskip. unfold has_entry in Hskip.
    rewrite Hown in Hskip. by apply bool_decide_eq_true in Hskip.
Qed.

Lemma own_groupedRequests data k :
  own (groupedRequests data) k
  = if bool_decide (k ∈ object_prototype_keys) then None
    else List.find (candidate k) data.
Proof. unfold groupedRequests. by rewrite own_foldl_group_step. Qed.

Lemma NoDup_foldl_group_step data : ∀ o,
  NoDup (map fst o) → NoDup (map fst (foldl group_step o data)).
Proof.
  induction data as [|item data IH]; intros o Ho; simpl; [done|].
  apply IH. destruct (group_step_cases o item) as [(-> & _ & _ & He)|[-> _]]; [|done].
  apply has_entry_false in He as [He _]. apply own_None in He.
  rewrite map_app. simpl. apply NoDup_app. split; [done|].
  split; [|apply NoDup_singleton].
  intros k Hk ->%list_elem_of_singleton. done.
Qed.

Lemma own_Some_elem o k r : own o k = Some r → (k, r) ∈ o.
Proof.
  induction o as [|[k0 r0] o IH]; simpl; [done|].
  destruct (String.eqb k0 k) eqn:Hk.
  - apply String.eqb_eq in Hk as ->. intros [= ->]. by left.
  - intros H. right. by apply IH.
Qed.

Lemma elem_own o k r : NoDup (map fst o) → (k, r) ∈ o → own o k = Some r.
Proof.
  induction o as [|[k0 r0] o IH]; simpl; intros Hnd Hin; [inversion Hin|].
  apply NoDup_cons in Hnd as [Hk0 Hnd].
  apply elem_of_cons in Hin as [[= -> ->]|Hin].
  - by rewrite String.eqb_refl.
  - destruct (String.eqb k0 k) eqn:Hk; [|by apply IH].
    apply String.eqb_eq in Hk as ->. destruct Hk0.
    change k with (fst (k, r)). rewrite map_fmap. by apply list_elem_of_fmap_2.
Qed.

Lemma insert_by_index_perm x l : insert_by_index x l ≡ₚ x :: l.
Proof.
  induction l as [|y l IH]; simpl; [done|].
  destruct (x.1 <=? y.1)%N; [done|]. rewrite IH. apply Permutation_swap.
Qed.

Lemma sort_by_index_perm l : foldr insert_by_index [] l ≡ₚ l.
Proof.
  induction l as [|x l IH]; simpl; [done|]. by rewrite insert_by_index_perm, IH.
Qed.

Lemma Object_values_perm o : Object_values o ≡ₚ map snd o.
Proof.
  unfold Object_values. rewrite sort_by_index_perm.
  induction o as [|[k r] o IH]; simpl; [done|].
  destruct (array_index k) as [n|] eqn:Hn; simpl.
  - by rewrite IH.
  - rewrite <- IH. by rewrite Permutation_middle.
Qed.

(** C7, as stated, fails: a record whose [Status] is "pending" in lower
    case is not a [Pending] record, yet the pending view lists it. *)
Lemma lowercase_status_listed :
  (pendingRequests sample_env (Sheet [lowercase_pending])).1 = [lowercase_pending]
  ∧ get lowercase_pending "Status" ≠ VStr "Pending".
Proof. split; [vm_compute; reflexivity|]. vm_compute. discriminate. Qed.

(** C7, amended.  The grouper keeps one entry per transaction key among
    the records whose [Status], lower-cased, is "pending" (the test is
    case-insensitive), the key being the stringified [Issue No] if it is
    truthy, else the [Storage No].  For a key [k] that does not name a
    property of [Object.prototype], the entry under [k] is the first record
    of the collection that is pending with key [k], if there is one.  No two
    entries share a key; the response lists the entries' records; every
    listed record is a record of the collection that is pending in this
    sense and has a truthy key.  On the three-record example the result is
    the single entry keyed "A", none for "B". *)
Theorem pending_groups_representatives (data : list record) (k : string) :
  k ∉ object_prototype_keys →
  own (groupedRequests data) k = List.find (candidate k) data
  ∧ NoDup (map fst (groupedRequests data))
  ∧ Object_values (groupedRequests data) ≡ₚ map snd (groupedRequests data)
  ∧ (∀ r, r ∈ Object_values (groupedRequests data) →
          r ∈ data ∧ is_pending r = true ∧ truthy (groupKey r) = true)
  ∧ groupedRequests grouping_example
    = [("A", obj [("Issue No", VStr "A"); ("Status", VStr "Pending")])]
  ∧ Object_values (groupedRequests grouping_example)
    = [obj [("Issue No", VStr "A"); ("Status", VStr "Pending")]].
Proof.
  intros Hk.
  assert (NoDup (map fst (groupedRequests data))) as Hnd.
  { apply NoDup_foldl_group_step. constructor. }
  split; [by rewrite own_groupedRequests, bool_decide_eq_false_2|].
  split; [done|]. split; [apply Object_values_perm|].
  split; [|split; vm_compute; reflexivity].
  intros r Hr. rewrite Object_values_perm, map_fmap in Hr.
  apply list_elem_of_fmap in Hr as ([k' r'] & -> & Hin). simpl.
  apply (elem_own _ _ _ Hnd) in Hin. rewrite own_groupedRequests in Hin.
  case_bool_decide; [done|].
  apply find_some in Hin as [Hin Hc]. apply list_elem_of_In in Hin.
  unfold candidate in Hc. apply andb_prop in Hc as [Hc _].
  apply andb_prop in Hc as [Hp Ht]. done.
Qed.

Lemma pending_groups_representatives_witness :
  ("A" ∉ object_prototype_keys)
  ∧ own (groupedRequests grouping_example) "A"
    = List.find (candidate "A") grouping_example
  ∧ NoDup (map fst (groupedRequests grouping_example))
  ∧ Object_values (groupedRequests grouping_example)
    ≡ₚ map snd (groupedRequests grouping_example)
  ∧ (∀ r, r ∈ Object_values (groupedRequests grouping_example) →
          r ∈ grouping_example ∧ is_pending r = true ∧ truthy (groupKey r) = true)
  ∧ groupedRequests grouping_example
    = [("A", obj [("Issue No", VStr "A"); ("Status", VStr "Pending")])]
  ∧ Object_values (groupedRequests grouping_example)
    = [obj [("Issue No", VStr "A"); ("Status", VStr "Pending")]].
Proof.
  assert ("A" ∉ object_prototype_keys) as Hk.
  { apply (proj1 (bool_decide_eq_false _)). vm_compute. reflexivity. }
  split; [exact Hk|].
  apply (pending_groups_representatives grouping_example "A" Hk).
Defined.

Example pending_groups_keys :
  map fst (groupedRequests
             [ obj [("Storage No", VNum 12); ("Status", VStr "PENDING")];
               obj [("Issue No", VStr ""); ("Storage No", VStr "12");
                    ("Status", VStr "Pending")];
               obj [("Status", VStr "Pending")];
               obj [("Issue No", VStr "X"); ("Status", VStr "Rejected")] ])
  = ["12"].
Proof. vm_compute. reflexivity. Qed.

(** ** The generated identifier *)






Example generateComponentId_samples :
  generateComponentId sample_rows = "CMP-004"
  ∧ generateComponentId [obj [("Component ID", VStr "CMP-999")]] = "CMP-1000"
  ∧ generateComponentId [obj [("Component ID", VStr "cmp-7")];
                         obj [("Component ID", VNum 12)];
                         obj [("Part No", VStr "CMP-50")]] = "CMP-001"
  ∧ generateComponentId [obj [("Component ID", VStr "X-CMP-0041b")]] = "CMP-042".
Proof. repeat split; vm_compute; reflexivity. Qed.

(** ** The read-back of [saveToExcelSync] *)

(** C1, as stated, fails.  A record without any value leaves no row in
    the sheet: two records are given, one row is read back, and the save
    still reports success. *)
Lemma save_ignores_read_back :
  let data := [∅; obj [("Component ID", VStr "CMP-001"); ("Part No", VNull)]] in
  length data = 2%nat
  ∧ (∃ verifyData, read_rows (saveToExcelSync sample_env data Missing).2
                   = Some verifyData ∧ length verifyData = 1%nat)
  ∧ (saveToExcelSync sample_env data Missing).1 = true.
Proof.
  split; [reflexivity|]. split; [|reflexivity].
  eexists. split; [vm_compute; reflexivity|reflexivity].
Qed.

(** C1, amended.  The save reads the workbook back right after writing
    it, but the rows read back play no part in the result: it reports
    success exactly when the file can be written, the workbook then holds
    the rows written from the given records, whatever their number; it
    reports failure, and leaves the workbook as it was, when writing
    throws. *)
Theorem saveToExcelSync_reports_write (e : env) (data : list record)
    (wb : workbook) :
  (saveToExcelSync e data wb).1 = disk_ok e
  ∧ (saveToExcelSync e data wb).2
    = (if disk_ok e then Sheet (written_rows data) else wb)
  ∧ (if disk_ok e
     then read_rows (saveToExcelSync e data wb).2 = Some (written_rows data)
     else True).
Proof. unfold saveToExcelSync. by destruct (disk_ok e). Qed.

(** * Further properties of the ledger *)

(** ** Rows through the workbook *)

Lemma has_text_nullish v : nullish v = true → has_text v = false.
Proof. by destruct v. Qed.

Lemma has_text_sheet_row item k :
  has_text (get (sheet_row item) k) = has_text (get item k).
Proof.
  rewrite get_sheet_row. destruct (nullish (get item k)) eqn:Hn; [|done].
  by rewrite (has_text_nullish _ Hn).
Qed.

Lemma keep_row_sheet_row item : keep_row (sheet_row item) = keep_row item.
Proof. unfold keep_row. by rewrite !has_text_sheet_row. Qed.

Lemma keep_row_not_blank item : keep_row item = true → item ≠ ∅.
Proof.
  intros Hk ->. unfold keep_row in Hk. by rewrite !get_empty in Hk.
Qed.

Lemma key_is_sheet_row item k id :
  key_is (get (sheet_row item) k) id = key_is (get item k) id.
Proof.
  rewrite get_sheet_row. by destruct (get item k).
Qed.

Lemma record_matches_sheet_row item id :
  record_matches (sheet_row item) id = record_matches item id.
Proof. unfold record_matches. by rewrite !key_is_sheet_row. Qed.

(** What a load finds after a save: the records that pass the blank-row
    filter, each without its [null] and [undefined] fields. *)
Lemma collection_written data :
  collection (Sheet (written_rows data)) = map sheet_row (List.filter keep_row data).
Proof.
  unfold collection, written_rows.
  induction data as [|item data IH]; [done|]. simpl.
  destruct (keep_row item) eqn:Hk.
  - assert (sheet_row item ≠ ∅) as Hne.
    { apply keep_row_not_blank. by rewrite keep_row_sheet_row. }
    rewrite bool_decide_eq_false_2 by done. simpl.
    rewrite keep_row_sheet_row, Hk. simpl. by rewrite IH.
  - destruct (negb (bool_decide (sheet_row item = ∅))); [|done].
    simpl. rewrite keep_row_sheet_row, Hk. done.
Qed.

Lemma keep_row_collection wb item : item ∈ collection wb → keep_row item = true.
Proof.
  destruct wb as [| |rows]; simpl; [intros H; inversion H..|].
  rewrite list_elem_of_In, filter_In. by intros [_ ?].
Qed.


(** ** Requests that fail *)





(** ** Attachments *)

Lemma mint_loop_None mk base (fails : component → bool) :
  (∀ id c, mk id c = None ↔ fails c = true) →
  ∀ comps acc,
    foldl (mint_step mk base) (Some acc) comps = None
    ↔ Exists (fun c => fails c = true) comps.
Proof.
  intros Hmk. induction comps as [|c comps IH]; intros acc; simpl.
  { split; [done|]. intros H. inversion H. }
  rewrite Exists_cons.
  destruct (mk (generateComponentId (base ++ acc)) c) as [item|] eqn:Hc; simpl.
  - rewrite IH. split; [by right|]. intros [Hf|?]; [|done].
    apply (proj2 (Hmk (generateComponentId (base ++ acc)) c)) in Hf. congruence.
  - rewrite mint_step_None. split; [|done]. intros _. left.
    exact (proj1 (Hmk _ _) Hc).
Qed.

Lemma some_upload_fails_alt comps :
  some_upload_fails comps ↔ Exists (fun c => upload_fails c = true) comps.
Proof.
  unfold some_upload_fails, upload_fails. rewrite !Exists_exists.
  split; intros (c & Hc & H); exists c; (split; [done|]);
    by destruct (upload c).
Qed.

Lemma issue_items_None today body base comps :
  issue_items today body base comps = None ↔ some_upload_fails comps.
Proof.
  rewrite issue_items_mint, some_upload_fails_alt. apply mint_loop_None.
  intros id c. unfold issue_pdf, upload_fails. by destruct (upload c).
Qed.

Lemma update_issue_items_None today body base comps :
  update_issue_items today body base comps = None ↔ some_upload_fails comps.
Proof.
  rewrite update_issue_items_mint, some_upload_fails_alt. apply mint_loop_None.
  intros id c. unfold update_pdf, upload_fails. by destruct (upload c).
Qed.

(** X2.  One failing attachment step aborts the whole batch, in the issue
    handler and in the issue branch of the update handler alike: the answer
    is 500 and nothing is written, whatever the other line items are.  The
    loops produce no record list exactly in that case. *)
Theorem upload_failure_aborts_batch (e : env) (identifier : string)
    (body : record) (comps : list component) (wb : workbook) :
  some_upload_fails comps →
  post_issue e body (Some comps) wb
  = (Failure 500 "Failed to process component issue: ", (loadExcelSync e wb).2)
  ∧ put_component e identifier body (IssueForm (Some comps)) wb
    = (Failure 500 "Failed to update component: ", (loadExcelSync e wb).2)
  ∧ (∀ base, issue_items (today e) body base comps = None
             ∧ update_issue_items (today e) body base comps = None)
  ∧ (∀ base comps',
       issue_items (today e) body base comps' = None ↔ some_upload_fails comps').
Proof.
  intros Hfail.
  assert (∀ base, issue_items (today e) body base comps = None) as Hi
    by (intros; by apply issue_items_None).
  assert (∀ base, update_issue_items (today e) body base comps = None) as Hu
    by (intros; by apply update_issue_items_None).
  split; [|split; [|split; [by split|intros; apply issue_items_None]]].
  - unfold post_issue. destruct (loadExcelSync e wb) as [cur wb1].
    destruct comps as [|c comps]; [inversion Hfail|]. by rewrite Hi.
  - unfold put_component. destruct (loadExcelSync e wb) as [cur wb1].
    by rewrite Hu.
Qed.

Lemma upload_failure_aborts_batch_witness :
  some_upload_fails [sample_line; failing_line]
  ∧ post_issue sample_env ∅ (Some [sample_line; failing_line]) (Sheet sample_rows)
    = (Failure 500 "Failed to process component issue: ",
       (loadExcelSync sample_env (Sheet sample_rows)).2)
  ∧ put_component sample_env "ISS-1" ∅
      (IssueForm (Some [sample_line; failing_line])) (Sheet sample_rows)
    = (Failure 500 "Failed to update component: ",
       (loadExcelSync sample_env (Sheet sample_rows)).2)
  ∧ (∀ base, issue_items (today sample_env) ∅ base [sample_line; failing_line] = None
             ∧ update_issue_items (today sample_env) ∅ base
                 [sample_line; failing_line] = None)
  ∧ (∀ base comps',
       issue_items (today sample_env) ∅ base comps' = None
       ↔ some_upload_fails comps').
Proof.
  assert (some_upload_fails [sample_line; failing_line]) as H.
  { right. left. reflexivity. }
  split; [exact H|].
  apply (upload_failure_aborts_batch sample_env "ISS-1" ∅
           [sample_line; failing_line] (Sheet sample_rows) H).
Defined.

(** ** Created records *)

Lemma mint_loop_Forall2 mk base (R : component → record → Prop) :
  (∀ id c item, mk id c = Some item → R c item) →
  ∀ comps acc items,
    foldl (mint_step mk base) (Some acc) comps = Some items →
    ∃ new, items = acc ++ new ∧ Forall2 R comps new.
Proof.
  intros HR. induction comps as [|c comps IH]; intros acc items H; simpl in H.
  - exists []. simplify_eq. by rewrite app_nil_r.
  - destruct (mk (generateComponentId (base ++ acc)) c) as [item|] eqn:Hmk;
      simpl in H; [|by rewrite mint_step_None in H].
    apply IH in H as (new & -> & Hnew).
    exists (item :: new). split; [by rewrite <- app_assoc|].
    constructor; [by eapply HR|done].
Qed.

(** The records a request creates are those its loop built. *)
Lemma created_cases e req wb :
  created e req wb = []
  ∨ (∃ body comps, req = Issue body (Some comps)
       ∧ issue_items (today e) body (collection wb) comps = Some (created e req wb))
  ∨ (∃ body comps, req = Storage body (Some comps)
       ∧ created e req wb = storage_items (today e) body (collection wb) comps)
  ∨ (∃ identifier body comps, req = Update identifier body (IssueForm (Some comps))
       ∧ update_issue_items (today e) body
           (remaining identifier (collection wb)) comps = Some (created e req wb))
  ∨ (∃ identifier body comps, req = Update identifier body (StorageForm comps)
       ∧ created e req wb
         = storage_items (today e) body (remaining identifier (collection wb)) comps).
Proof.
  unfold created.
  destruct req as [body comps|body comps|requestId approvalData
                  |requestId reason|identifier|identifier body payload];
    simpl handle; cbn [base_of].
  - unfold post_issue. load_store e wb cur wb1 Hwb1.
    destruct comps as [[|c comps]|]; [by left| |by left].
    destruct (issue_items _ _ _ _) as [items|] eqn:Hitems; [|by left].
    destruct (saveToExcelSync e _ wb1) as [[] wb2]; [|by left].
    right. left. eexists _, _. split; [done|]. simpl.
    by rewrite drop_app_length.
  - unfold post_storage. load_store e wb cur wb1 Hwb1.
    destruct comps as [[|c comps]|]; [by left| |by left].
    destruct (saveToExcelSync e _ wb1) as [[] wb2]; [|by left].
    right. right. left. eexists _, _. split; [done|]. simpl.
    by rewrite drop_app_length.
  - left. unfold post_approve. destruct approvalData; [|done].
    destruct (loadExcelSync e wb) as [cur wb1].
    destruct (matchingIndices requestId cur) as [[|]|]; try done.
    by destruct (saveToExcelSync e _ wb1) as [[] ?].
  - left. unfold post_reject.
    destruct (loadExcelSync e wb) as [cur wb1].
    destruct (matchingIndices requestId cur) as [[|]|]; try done.
    by destruct (saveToExcelSync e _ wb1) as [[] ?].
  - left. unfold delete_component.
    destruct (loadExcelSync e wb) as [cur wb1].
    destruct (_ =? _)%nat; [done|].
    by destruct (saveToExcelSync e _ wb1) as [[] ?].
  - unfold put_component. load_store e wb cur wb1 Hwb1.
    destruct payload as [[comps|]|comps|]; [|by left| |by left].
    + destruct (update_issue_items _ _ _ _) as [items|] eqn:Hitems; [|by left].
      destruct (saveToExcelSync e _ wb1) as [[] wb2]; [|by left].
      right. right. right. left. eexists _, _, _. split; [done|]. simpl.
      by rewrite drop_app_length.
    + destruct (saveToExcelSync e _ wb1) as [[] wb2]; [|by left].
      right. right. right. right. eexists _, _, _. split; [done|]. simpl.
      by rewrite drop_app_length.
Qed.

Lemma issue_item_from e body comps c id pdf :
  created_from e (Issue body comps) c (issue_item id (today e) body c pdf).
Proof.
  unfold created_from. cbn [transaction_field form_type fst snd].
  repeat split; try (unfold issue_item; by get_field).
  all: intros Ht; unfold groupKey, js_or, issue_item; get_field; cbn [truthy];
    by rewrite ?Ht.
Qed.

Lemma storage_item_from e body comps c id :
  created_from e (Storage body comps) c (storage_item id (today e) body c).
Proof.
  unfold created_from. cbn [transaction_field form_type fst snd].
  repeat split; try (unfold storage_item; by get_field).
  all: intros Ht; unfold groupKey, js_or, storage_item; get_field; cbn [truthy];
    by rewrite ?Ht.
Qed.

Lemma update_issue_item_from e identifier body comps c id pdf :
  created_from e (Update identifier body (IssueForm comps)) c
               (update_issue_item id (today e) body c pdf).
Proof.
  unfold created_from. cbn [transaction_field form_type fst snd].
  repeat split; try (unfold update_issue_item; by get_field).
  all: intros Ht; unfold groupKey, js_or, update_issue_item; get_field; cbn [truthy];
    by rewrite ?Ht.
Qed.

Lemma update_storage_item_from e identifier body comps c id :
  created_from e (Update identifier body (StorageForm comps)) c
               (storage_item id (today e) body c).
Proof.
  unfold created_from. cbn [transaction_field form_type fst snd].
  repeat split; try (unfold storage_item; by get_field).
  all: intros Ht; unfold groupKey, js_or, storage_item; get_field; cbn [truthy];
    by rewrite ?Ht.
Qed.

Lemma created_follow e req wb :
  created e req wb = []
  ∨ Forall2 (created_from e req) (line_items req) (created e req wb).
Proof.
  destruct (created_cases e req wb)
    as [H|[(body & comps & -> & H)|[(body & comps & -> & H)
       |[(identifier & body & comps & -> & H)|(identifier & body & comps & -> & H)]]]];
    [by left|right..]; cbn [line_items batch_of default].
  - rewrite issue_items_mint in H.
    apply (mint_loop_Forall2 _ _ (created_from e (Issue body (Some comps)))) in H
      as (new & -> & Hnew); [done|].
    intros id c item Hmk. destruct (issue_pdf c); simplify_eq/=.
    apply issue_item_from.
  - rewrite H. pose proof (storage_items_mint (today e) body (collection wb) comps) as Hs.
    symmetry in Hs.
    apply (mint_loop_Forall2 _ _ (created_from e (Storage body (Some comps)))) in Hs
      as (new & -> & Hnew); [done|].
    intros id c item [= <-]. apply storage_item_from.
  - rewrite update_issue_items_mint in H.
    apply (mint_loop_Forall2 _ _
             (created_from e (Update identifier body (IssueForm (Some comps))))) in H
      as (new & -> & Hnew); [done|].
    intros id c item Hmk. destruct (update_pdf c); simplify_eq/=.
    apply update_issue_item_from.
  - rewrite H.
    pose proof (storage_items_mint (today e) body
                  (remaining identifier (collection wb)) comps) as Hs.
    symmetry in Hs.
    apply (mint_loop_Forall2 _ _
             (created_from e (Update identifier body (StorageForm comps)))) in Hs
      as (new & -> & Hnew); [done|].
    intros id c item [= <-]. apply update_storage_item_from.
Qed.

(** X3.  The records a request creates correspond, in order, to its line
    items: one record per line item, [Pending], dated of the day, of the
    type and under the transaction key of the form, carrying the part
    number, description and serial number of its line item.  A request that
    creates nothing creates no record at all (no partial batch). *)
Theorem created_records_follow_batch (e : env) (req : request) (wb : workbook) :
  created e req wb = []
  ∨ Forall2 (created_from e req) (line_items req) (created e req wb).
Proof. apply created_follow. Qed.

(** ** Successful submits *)





Lemma filter_keep_all (items : list record) :
  Forall (fun item => keep_row item = true) items → List.filter keep_row items = items.
Proof.
  induction 1 as [|item items Hk _ IH]; [done|]. simpl. by rewrite Hk, IH.
Qed.





(** ** Delete and lookup *)

Lemma count_remaining identifier data :
  (length (remaining identifier data) + count_matching identifier data)%nat
  = length data.
Proof.
  unfold remaining, count_matching. induction data as [|item data IH]; [done|].
  simpl. destruct (record_matches item identifier); simpl; lia.
Qed.

Lemma Forall_keep_row_collection wb :
  Forall (fun item => keep_row item = true) (collection wb).
Proof. apply Forall_forall. intros item. apply keep_row_collection. Qed.

Lemma Forall_keep_row_remaining identifier data :
  Forall (fun item => keep_row item = true) data →
  Forall (fun item => keep_row item = true) (remaining identifier data).
Proof.
  unfold remaining. induction 1 as [|item data Hk _ IH]; simpl; [done|].
  destruct (negb (record_matches item identifier)); [by constructor|done].
Qed.

Lemma collection_after_delete identifier wb :
  collection (Sheet (written_rows (remaining identifier (collection wb))))
  = map sheet_row (remaining identifier (collection wb)).
Proof.
  rewrite collection_written, filter_keep_all; [done|].
  apply Forall_keep_row_remaining, Forall_keep_row_collection.
Qed.

Lemma remaining_no_match identifier data item :
  item ∈ map sheet_row (remaining identifier data) →
  record_matches item identifier = false.
Proof.
  rewrite map_fmap. intros (x & -> & Hx)%list_elem_of_fmap.
  apply elem_of_remaining in Hx as [_ Hx]. by rewrite record_matches_sheet_row.
Qed.

Lemma find_none_iff {A} (f : A → bool) (l : list A) :
  List.find f l = None ↔ ∀ x, x ∈ l → f x = false.
Proof.
  induction l as [|a l IH]; simpl.
  - split; [|done]. intros _ x Hx. inversion Hx.
  - destruct (f a) eqn:Ha.
    + split; [done|]. intros H. specialize (H a). rewrite Ha in H.
      discriminate H. by left.
    + rewrite IH. split.
      * intros H x [->|Hx]%elem_of_cons; auto.
      * intros H x Hx. apply H. by right.
Qed.

Lemma find_first {A} (f : A → bool) (l : list A) x :
  List.find f l = Some x →
  ∃ pre post, l = pre ++ x :: post ∧ f x = true ∧ ∀ y, y ∈ pre → f y = false.
Proof.
  induction l as [|a l IH]; simpl; [done|].
  destruct (f a) eqn:Ha.
  - intros [= ->]. exists [], l. split; [done|]. split; [done|].
    intros y Hy. inversion Hy.
  - intros (pre & post & -> & Hx & Hpre)%IH.
    exists (a :: pre), post. split; [done|]. split; [done|].
    intros y [->|Hy]%elem_of_cons; auto.
Qed.

(** X5.  A delete that matches, on a writable workbook, reports the number
    of matching records and stores the others, in their order, none of
    them altered beyond the loss of empty fields.  Afterwards no stored
    record matches the identifier: the lookup answers not found and a
    second delete answers 404. *)
Theorem delete_removes_all_matching (e e' : env) (identifier : string)
    (wb : workbook) :
  disk_ok e = true →
  (∃ item, item ∈ collection wb ∧ record_matches item identifier = true) →
  ∃ message wb',
    delete_component e identifier wb
    = (Ok200 (ItemsDeleted message (count_matching identifier (collection wb))), wb')
    ∧ collection wb' = map sheet_row (remaining identifier (collection wb))
    ∧ (length (collection wb') + count_matching identifier (collection wb))%nat
      = length (collection wb)
    ∧ (∀ item, item ∈ collection wb' → record_matches item identifier = false)
    ∧ (find_component e' identifier wb').1 = None
    ∧ delete_component e' identifier wb' = (Failure 404 "Component not found", wb').
Proof.
  intros Hdisk (item & Hin & Hm).
  pose proof (count_matching_pos _ _ _ Hin Hm) as Hcount.
  pose proof (count_remaining identifier (collection wb)) as Hlen.
  eexists _, (Sheet (written_rows (remaining identifier (collection wb)))).
  assert (∀ x, x ∈ collection (Sheet (written_rows (remaining identifier (collection wb))))
               → record_matches x identifier = false) as Hnone.
  { intros x. rewrite collection_after_delete. apply remaining_no_match. }
  split; [|split; [apply collection_after_delete|split; [|split; [done|split]]]].
  - unfold delete_component. load_store e wb cur wb1 Hwb1.
    replace (length (collection wb) - length (remaining identifier (collection wb)))%nat
      with (count_matching identifier (collection wb)) by lia.
    rewrite (proj2 (Nat.eqb_neq _ _) Hcount).
    unfold saveToExcelSync. rewrite Hdisk. done.
  - rewrite collection_after_delete, length_map. lia.
  - unfold find_component.
    rewrite (surjective_pairing (loadExcelSync e' _)). cbn [fst].
    rewrite loadExcelSync_collection. by apply find_none_iff.
  - unfold delete_component.
    rewrite (surjective_pairing (loadExcelSync e' _)).
    rewrite loadExcelSync_collection. cbn [loadExcelSync snd].
    rewrite (remaining_all _ _ Hnone), Nat.sub_diag. done.
Qed.

Lemma delete_removes_all_matching_witness :
  disk_ok sample_env = true
  ∧ (∃ item, item ∈ collection (Sheet sample_rows)
             ∧ record_matches item "ISS-1" = true)
  ∧ ∃ message wb',
      delete_component sample_env "ISS-1" (Sheet sample_rows)
      = (Ok200 (ItemsDeleted message
                  (count_matching "ISS-1" (collection (Sheet sample_rows)))), wb')
      ∧ collection wb'
        = map sheet_row (remaining "ISS-1" (collection (Sheet sample_rows)))
      ∧ (length (collection wb')
         + count_matching "ISS-1" (collection (Sheet sample_rows)))%nat
        = length (collection (Sheet sample_rows))
      ∧ (∀ item, item ∈ collection wb' → record_matches item "ISS-1" = false)
      ∧ (find_component sample_env "ISS-1" wb').1 = None
      ∧ delete_component sample_env "ISS-1" wb'
        = (Failure 404 "Component not found", wb').
Proof.
  assert (∃ item, item ∈ collection (Sheet sample_rows)
                  ∧ record_matches item "ISS-1" = true) as Hsome.
  { eexists. split; [right; left|]. vm_compute. reflexivity. }
  split; [reflexivity|]. split; [exact Hsome|].
  apply (delete_removes_all_matching sample_env sample_env "ISS-1" (Sheet sample_rows));
    [reflexivity|exact Hsome].
Defined.

(** X6.  The lookup returns the first record of the loaded collection
    that matches the identifier, and nothing exactly when no record
    matches, which is also exactly when a delete of the same identifier
    answers 404. *)
Theorem find_component_first_match (e : env) (identifier : string)
    (wb : workbook) :
  match (find_component e identifier wb).1 with
  | Some item =>
      ∃ pre post, collection wb = pre ++ item :: post
        ∧ record_matches item identifier = true
        ∧ ∀ x, x ∈ pre → record_matches x identifier = false
  | None => ∀ item, item ∈ collection wb → record_matches item identifier = false
  end
  ∧ ((find_component e identifier wb).1 = None
     ↔ (delete_component e identifier wb).1 = Failure 404 "Component not found").
Proof.
  unfold find_component, delete_component. load_store e wb cur wb1 Hwb1.
  cbn [fst]. split.
  - destruct (List.find _ _) as [item|] eqn:Hfind.
    + by apply find_first in Hfind.
    + by apply find_none_iff.
  - pose proof (count_remaining identifier (collection wb)) as Hlen.
    rewrite find_none_iff, <- count_matching_zero.
    replace (length (collection wb) - length (remaining identifier (collection wb)))%nat
      with (count_matching identifier (collection wb)) by lia.
    destruct (count_matching identifier (collection wb)); [done|].
    simpl. split; [done|].
    by destruct (saveToExcelSync e _ wb1) as [[] ?].
Qed.

(** ** Decisions and the pending view *)

Lemma listed_is_pending data r :
  r ∈ Object_values (groupedRequests data) →
  r ∈ data ∧ is_pending r = true ∧ truthy (groupKey r) = true.
Proof.
  intros Hr. rewrite Object_values_perm, map_fmap in Hr.
  apply list_elem_of_fmap in Hr as ([k r'] & -> & Hin). simpl.
  assert (NoDup (map fst (groupedRequests data))) as Hnd.
  { apply NoDup_foldl_group_step. constructor. }
  apply (elem_own _ _ _ Hnd) in Hin. rewrite own_groupedRequests in Hin.
  case_bool_decide; [done|].
  apply find_some in Hin as [Hin Hc]. apply list_elem_of_In in Hin.
  unfold candidate in Hc. apply andb_prop in Hc as [Hc _].
  by apply andb_prop in Hc as [Hp Ht].
Qed.


Lemma is_pending_sheet_row item : is_pending (sheet_row item) = is_pending item.
Proof.
  unfold is_pending. rewrite get_sheet_row. by destruct (get item "Status").
Qed.

Lemma js_or_nullish a b :
  let a' := if nullish a then VUndef else a in
  let b' := if nullish b then VUndef else b in
  truthy (js_or a' b') = truthy (js_or a b)
  ∧ (truthy (js_or a b) = true → js_or a' b' = js_or a b).
Proof.
  unfold js_or.
  destruct a as [| |[]|n|s]; destruct b as [| |[]|m|t]; simpl;
    repeat (match goal with
            | |- context [negb ?c] => destruct c
            end; simpl); by split.
Qed.

Lemma candidate_sheet_row k item : candidate k (sheet_row item) = candidate k item.
Proof.
  unfold candidate, groupKey. rewrite is_pending_sheet_row, !get_sheet_row.
  destruct (js_or_nullish (get item "Issue No") (get item "Storage No")) as [Ht Hv].
  simpl in Ht, Hv. rewrite Ht.
  destruct (truthy (js_or (get item "Issue No") (get item "Storage No"))) eqn:Hg.
  - by rewrite Hv.
  - by rewrite !andb_false_r.
Qed.

Lemma is_pending_status item s :
  get item "Status" = VStr s → toLowerCase s ≠ "pending" → is_pending item = false.
Proof.
  intros Hs Hne. unfold is_pending. rewrite Hs. simpl.
  apply andb_false_iff. right. by apply String.eqb_neq.
Qed.

Lemma stamped_elem f id data x :
  x ∈ stamp_matching f id data →
  ∃ item, item ∈ data
    ∧ x = (if record_matches item id then f item else item).
Proof.
  unfold stamp_matching. rewrite map_fmap.
  intros (item & -> & Hin)%list_elem_of_fmap. by exists item.
Qed.

Lemma stamped_not_listed f id data e' r :
  (∀ item, record_matches (f item) id = record_matches item id) →
  (∀ item, is_pending (f item) = false) →
  r ∈ (pendingRequests e' (Sheet (written_rows (stamp_matching f id data)))).1 →
  record_matches r id = false.
Proof.
  intros Hfm Hfp. unfold pendingRequests. cbn [loadExcelSync fst].
  change (List.filter keep_row (written_rows (stamp_matching f id data)))
    with (collection (Sheet (written_rows (stamp_matching f id data)))).
  intros (Hin & Hp & _)%listed_is_pending.
  rewrite collection_written, map_fmap in Hin.
  apply list_elem_of_fmap in Hin as (x & -> & Hx).
  apply list_elem_of_In, filter_In in Hx as [Hx%list_elem_of_In _].
  apply stamped_elem in Hx as (item & _ & ->).
  rewrite record_matches_sheet_row, is_pending_sheet_row in *.
  destruct (record_matches item id) eqn:Hm; [|done].
  by rewrite Hfp in Hp.
Qed.

Lemma approve_item_not_pending today approvalData item :
  is_pending (approve_item today approvalData item) = false.
Proof.
  apply (is_pending_status _ "Approved"); [|done].
  unfold approve_item. by get_field.
Qed.

Lemma reject_item_not_pending today reason item :
  is_pending (reject_item today reason item) = false.
Proof.
  apply (is_pending_status _ "Rejected"); [|done].
  unfold reject_item. by get_field.
Qed.

Lemma find_some_elem {A} (f : A → bool) (l : list A) x :
  x ∈ l → f x = true → is_Some (List.find f l).
Proof.
  intros Hx Hf. destruct (List.find f l) eqn:Hfind; [by eexists|].
  rewrite find_none_iff in Hfind. rewrite (Hfind _ Hx) in Hf. discriminate.
Qed.

Lemma untouched_still_listed f id data k r :
  k ∉ object_prototype_keys →
  r ∈ data → keep_row r = true → record_matches r id = false →
  candidate k r = true →
  is_Some (own (groupedRequests
                  (collection (Sheet (written_rows (stamp_matching f id data))))) k).
Proof.
  intros Hk Hr Hkeep Hm Hc.
  rewrite own_groupedRequests, bool_decide_eq_false_2 by done.
  apply (find_some_elem _ _ (sheet_row r)); [|by rewrite candidate_sheet_row].
  rewrite collection_written, map_fmap. apply list_elem_of_fmap_2.
  apply list_elem_of_In, filter_In. split; [|done].
  apply list_elem_of_In. unfold stamp_matching. rewrite map_fmap.
  apply list_elem_of_fmap. exists r. by rewrite Hm.
Qed.

(** X7.  Once an approve or a reject has gone through, no record that
    matches its identifier is listed in the pending view any more, while
    every pending record that does not match keeps its transaction listed
    (for keys that do not name a property of [Object.prototype]). *)
Theorem decided_leave_pending_view (e e' : env) (requestId : value)
    (id : string) (approvalData : record) (reason : value) (wb : workbook) :
  js_toString requestId = Some id →
  disk_ok e = true →
  (∃ item, item ∈ collection wb ∧ record_matches item id = true) →
  let approved := (post_approve e requestId (Some approvalData) wb).2 in
  let rejected := (post_reject e requestId reason wb).2 in
  (∀ r, r ∈ (pendingRequests e' approved).1 → record_matches r id = false)
  ∧ (∀ r, r ∈ (pendingRequests e' rejected).1 → record_matches r id = false)
  ∧ (∀ k r, k ∉ object_prototype_keys → r ∈ collection wb →
            record_matches r id = false → candidate k r = true →
            is_Some (own (groupedRequests (collection approved)) k)
            ∧ is_Some (own (groupedRequests (collection rejected)) k)).
Proof.
  intros Hid Hdisk (item & Hin & Hm) approved rejected.
  pose proof (count_matching_pos _ _ _ Hin Hm) as Hcount.
  destruct (post_approve_found e requestId id approvalData wb Hid Hcount Hdisk)
    as [messageA HA].
  destruct (post_reject_found e requestId id reason wb Hid Hcount Hdisk)
    as [messageR HR].
  subst approved rejected. rewrite HA, HR. cbn [snd].
  split; [|split].
  - intros r. apply stamped_not_listed;
      [intros; apply approve_item_matches|intros; apply approve_item_not_pending].
  - intros r. apply stamped_not_listed;
      [intros; apply reject_item_matches|intros; apply reject_item_not_pending].
  - intros k r Hk Hr Hnm Hc.
    pose proof (keep_row_collection _ _ Hr) as Hkeep.
    split; by apply (untouched_still_listed _ _ _ _ r).
Qed.

Lemma decided_leave_pending_view_witness :
  js_toString (VStr "CMP-002") = Some "CMP-002"
  ∧ disk_ok sample_env = true
  ∧ (∃ item, item ∈ collection (Sheet sample_rows)
             ∧ record_matches item "CMP-002" = true)
  ∧ let approved := (post_approve sample_env (VStr "CMP-002") (Some sample_approval)
                       (Sheet sample_rows)).2 in
    let rejected := (post_reject sample_env (VStr "CMP-002") (VStr "damaged")
                       (Sheet sample_rows)).2 in
    (∀ r, r ∈ (pendingRequests sample_env approved).1 →
          record_matches r "CMP-002" = false)
    ∧ (∀ r, r ∈ (pendingRequests sample_env rejected).1 →
            record_matches r "CMP-002" = false)
    ∧ (∀ k r, k ∉ object_prototype_keys → r ∈ collection (Sheet sample_rows) →
              record_matches r "CMP-002" = false → candidate k r = true →
              is_Some (own (groupedRequests (collection approved)) k)
              ∧ is_Some (own (groupedRequests (collection rejected)) k)).
Proof.
  assert (∃ item, item ∈ collection (Sheet sample_rows)
                  ∧ record_matches item "CMP-002" = true) as Hsome.
  { eexists. split; [right; left|]. vm_compute. reflexivity. }
  split; [reflexivity|]. split; [reflexivity|]. split; [exact Hsome|].
  apply (decided_leave_pending_view sample_env sample_env (VStr "CMP-002") "CMP-002"
           sample_approval (VStr "damaged") (Sheet sample_rows));
    [reflexivity|reflexivity|exact Hsome].
Defined.

Example pending_view_after_single_approval :
  map fst (groupedRequests
             (collection (post_approve sample_env (VStr "CMP-002")
                            (Some sample_approval) (Sheet sample_rows)).2))
  = ["ISS-1"]
  ∧ map fst (groupedRequests
               (collection (post_approve sample_env (VStr "ISS-1")
                              (Some sample_approval) (Sheet sample_rows)).2))
    = [].
Proof. split; vm_compute; reflexivity. Qed.

(** ** A submitted batch under its transaction key *)


Lemma count_matching_sheet_rows id data :
  count_matching id (map sheet_row data) = count_matching id data.
Proof.
  unfold count_matching. induction data as [|item data IH]; [done|]. simpl.
  rewrite record_matches_sheet_row.
  destruct (record_matches item id); simpl; by rewrite IH.
Qed.







(** ** Distinct identifiers *)














(** ** Loading *)





(** ** Saving what was loaded *)

Lemma sheet_row_idem item : sheet_row (sheet_row item) = sheet_row item.
Proof.
  apply map_eq. intros k. unfold sheet_row. rewrite !map_lookup_filter.
  destruct (item !! k) as [v|]; simpl; [|done].
  case_guard as Hv; simpl; [|done]. by rewrite option_guard_True.
Qed.

Lemma filter_keep_row_sheet_rows data :
  List.filter keep_row (map sheet_row data) = map sheet_row (List.filter keep_row data).
Proof.
  induction data as [|item data IH]; [done|]. simpl.
  rewrite keep_row_sheet_row. destruct (keep_row item); simpl; by rewrite IH.
Qed.

Lemma filter_keep_row_idem data :
  List.filter keep_row (List.filter keep_row data) = List.filter keep_row data.
Proof.
  induction data as [|item data IH]; [done|]. simpl.
  destruct (keep_row item) eqn:Hk; [|done]. simpl. by rewrite Hk, IH.
Qed.

(** X11.  Saving a collection and loading it gives the records that pass
    the blank-row filter, in order, each without its [null] and
    [undefined] fields; saving that result again and loading it changes
    nothing more.  In particular, re-saving what was just loaded from a
    saved workbook leaves the stored collection as it is. *)
Theorem save_load_round_trip (e : env) (data : list record) (wb : workbook) :
  disk_ok e = true →
  let stored := (loadExcelSync e (saveToExcelSync e data wb).2).1 in
  stored = map sheet_row (List.filter keep_row data)
  ∧ (length stored ≤ length data)%nat
  ∧ (loadExcelSync e (saveToExcelSync e stored (saveToExcelSync e data wb).2).2).1
    = stored.
Proof.
  intros Hdisk stored. subst stored.
  unfold saveToExcelSync. rewrite Hdisk. cbn [read_rows snd].
  rewrite !loadExcelSync_collection, !collection_written.
  split; [done|]. split.
  - rewrite length_map. apply filter_length_le.
  - rewrite filter_keep_row_sheet_rows, filter_keep_row_idem, map_map.
    apply map_ext. intros item. apply sheet_row_idem.
Qed.

Lemma save_load_round_trip_witness :
  disk_ok sample_env = true
  ∧ let stored := (loadExcelSync sample_env
                     (saveToExcelSync sample_env sample_rows Missing).2).1 in
    stored = map sheet_row (List.filter keep_row sample_rows)
    ∧ (length stored ≤ length sample_rows)%nat
    ∧ (loadExcelSync sample_env
         (saveToExcelSync sample_env stored
            (saveToExcelSync sample_env sample_rows Missing).2).2).1
      = stored.
Proof.
  split; [reflexivity|].
  apply (save_load_round_trip sample_env sample_rows Missing). reflexivity.
Defined.

(** ** Updates *)








(** ** Decisions in sequence *)

Lemma lookup_sheet_row item k :
  sheet_row item !! k
  = item !! k ≫= (fun v => if nullish v then None else Some v).
Proof.
  unfold sheet_row. rewrite map_lookup_filter.
  destruct (item !! k) as [v|]; simpl; [|done].
  case_guard as Hv; simpl in *; [by rewrite Hv|]. by destruct (nullish v).
Qed.

Lemma sheet_row_assign k v item :
  sheet_row (assign k v (sheet_row item)) = sheet_row (assign k v item).
Proof.
  apply map_eq. intros k'. rewrite !lookup_sheet_row. unfold assign.
  rewrite !lookup_insert. case_decide; [done|].
  rewrite lookup_sheet_row. destruct (item !! k') as [w|]; simpl; [|done].
  by destruct (nullish w) eqn:Hw; simpl; rewrite ?Hw.
Qed.

Lemma sheet_row_assign_congr k v a b :
  sheet_row a = sheet_row b → sheet_row (assign k v a) = sheet_row (assign k v b).
Proof.
  intros H. by rewrite <- (sheet_row_assign k v a), <- (sheet_row_assign k v b), H.
Qed.

Lemma sheet_row_approve_item today approvalData item :
  sheet_row (approve_item today approvalData (sheet_row item))
  = sheet_row (approve_item today approvalData item).
Proof.
  unfold approve_item. do 3 apply sheet_row_assign_congr. apply sheet_row_assign.
Qed.

Lemma sheet_row_reject_item today reason item :
  sheet_row (reject_item today reason (sheet_row item))
  = sheet_row (reject_item today reason item).
Proof.
  unfold reject_item. do 2 apply sheet_row_assign_congr. apply sheet_row_assign.
Qed.

Lemma approve_item_idem today approvalData item :
  approve_item today approvalData (approve_item today approvalData item)
  = approve_item today approvalData item.
Proof.
  apply map_eq. intros k. unfold approve_item, assign.
  rewrite !lookup_insert. by repeat case_decide.
Qed.

Lemma reject_item_idem today reason item :
  reject_item today reason (reject_item today reason item)
  = reject_item today reason item.
Proof.
  apply map_eq. intros k. unfold reject_item, assign.
  rewrite !lookup_insert. by repeat case_decide.
Qed.

Lemma keep_row_approve_item today approvalData item :
  keep_row (approve_item today approvalData item) = keep_row item.
Proof. unfold keep_row, approve_item. by get_field. Qed.

Lemma keep_row_reject_item today reason item :
  keep_row (reject_item today reason item) = keep_row item.
Proof. unfold keep_row, reject_item. by get_field. Qed.

Lemma collection_stamped f id wb :
  (∀ item, keep_row (f item) = keep_row item) →
  collection (Sheet (written_rows (stamp_matching f id (collection wb))))
  = map sheet_row (stamp_matching f id (collection wb)).
Proof.
  intros Hf. rewrite collection_written, filter_keep_all; [done|].
  apply Forall_forall. intros x (item & Hitem & ->)%stamped_elem.
  apply keep_row_collection in Hitem.
  destruct (record_matches item id); by rewrite ?Hf.
Qed.

Lemma count_matching_stamped f id data :
  (∀ item, record_matches (f item) id = record_matches item id) →
  count_matching id (stamp_matching f id data) = count_matching id data.
Proof.
  intros Hf. unfold count_matching, stamp_matching.
  induction data as [|item data IH]; [done|]. simpl.
  destruct (record_matches item id) eqn:Hm; rewrite ?Hf, Hm; simpl; by rewrite IH.
Qed.

Lemma stamp_twice f id data :
  (∀ item, record_matches (f item) id = record_matches item id) →
  (∀ item, sheet_row (f (sheet_row item)) = sheet_row (f item)) →
  (∀ item, f (f item) = f item) →
  map sheet_row (stamp_matching f id (map sheet_row (stamp_matching f id data)))
  = map sheet_row (stamp_matching f id data).
Proof.
  intros Hm Hs Hi. unfold stamp_matching. rewrite !map_map.
  apply map_ext. intros item. rewrite record_matches_sheet_row.
  destruct (record_matches item id) eqn:Hitem.
  - by rewrite Hm, Hitem, Hs, Hi.
  - rewrite Hitem. apply sheet_row_idem.
Qed.

Lemma post_approve_answer e requestId id approvalData wb :
  js_toString requestId = Some id →
  count_matching id (collection wb) ≠ 0%nat →
  disk_ok e = true →
  post_approve e requestId (Some approvalData) wb
  = (Ok200 (ItemsUpdated ("Request approved successfully! "
                            +:+ count_text (count_matching id (collection wb))
                            +:+ " item(s) updated.")
                         (count_matching id (collection wb))),
     Sheet (written_rows
              (stamp_matching (approve_item (today e) approvalData) id
                              (collection wb)))).
Proof.
  intros Hid Hcount Hdisk. unfold post_approve. load_store e wb cur wb1 Hwb1.
  destruct (matchingIndices_spec (approve_item (today e) approvalData)
              requestId id (collection wb) Hid) as (indices & -> & Hupd & Hlen).
  rewrite Hupd, Hlen. unfold saveToExcelSync. rewrite Hdisk. cbn [read_rows].
  destruct indices as [|i indices]; [simpl in Hlen; congruence|].
  done.
Qed.

Lemma post_reject_answer e requestId id reason wb :
  js_toString requestId = Some id →
  count_matching id (collection wb) ≠ 0%nat →
  disk_ok e = true →
  post_reject e requestId reason wb
  = (Ok200 (ItemsUpdated ("Request rejected successfully! "
                            +:+ count_text (count_matching id (collection wb))
                            +:+ " item(s) updated.")
                         (count_matching id (collection wb))),
     Sheet (written_rows
              (stamp_matching (reject_item (today e) reason) id
                              (collection wb)))).
Proof.
  intros Hid Hcount Hdisk. unfold post_reject. load_store e wb cur wb1 Hwb1.
  destruct (matchingIndices_spec (reject_item (today e) reason)
              requestId id (collection wb) Hid) as (indices & -> & Hupd & Hlen).
  rewrite Hupd, Hlen. unfold saveToExcelSync. rewrite Hdisk. cbn [read_rows].
  destruct indices as [|i indices]; [simpl in Hlen; congruence|].
  done.
Qed.

(** X14.  Approving is idempotent, and so is rejecting: a decision made
    again with the same data on the same day reports the same number of
    records and leaves the stored collection as the first one left it. *)
Theorem decision_is_idempotent (e : env) (requestId : value) (id : string)
    (approvalData : record) (reason : value) (wb : workbook) :
  js_toString requestId = Some id →
  disk_ok e = true →
  (∃ item, item ∈ collection wb ∧ record_matches item id = true) →
  let approved := (post_approve e requestId (Some approvalData) wb).2 in
  let rejected := (post_reject e requestId reason wb).2 in
  (post_approve e requestId (Some approvalData) approved).1
  = (post_approve e requestId (Some approvalData) wb).1
  ∧ collection (post_approve e requestId (Some approvalData) approved).2
    = collection approved
  ∧ (post_reject e requestId reason rejected).1
    = (post_reject e requestId reason wb).1
  ∧ collection (post_reject e requestId reason rejected).2 = collection rejected.
Proof.
  intros Hid Hdisk (item & Hin & Hm) approved rejected.
  pose proof (count_matching_pos _ _ _ Hin Hm) as Hcount.
  pose proof (post_approve_answer e requestId id approvalData wb Hid Hcount Hdisk)
    as HA.
  pose proof (post_reject_answer e requestId id reason wb Hid Hcount Hdisk) as HR.
  assert (collection approved
          = map sheet_row (stamp_matching (approve_item (today e) approvalData) id
                                          (collection wb))) as HcA.
  { subst approved. rewrite HA. apply collection_stamped.
    intros. apply keep_row_approve_item. }
  assert (collection rejected
          = map sheet_row (stamp_matching (reject_item (today e) reason) id
                                          (collection wb))) as HcR.
  { subst rejected. rewrite HR. apply collection_stamped.
    intros. apply keep_row_reject_item. }
  assert (count_matching id (collection approved) = count_matching id (collection wb))
    as HnA.
  { rewrite HcA, count_matching_sheet_rows. apply count_matching_stamped.
    intros. apply approve_item_matches. }
  assert (count_matching id (collection rejected) = count_matching id (collection wb))
    as HnR.
  { rewrite HcR, count_matching_sheet_rows. apply count_matching_stamped.
    intros. apply reject_item_matches. }
  pose proof (post_approve_answer e requestId id approvalData approved Hid) as HA2.
  pose proof (post_reject_answer e requestId id reason rejected Hid) as HR2.
  rewrite HnA in HA2. rewrite HnR in HR2.
  specialize (HA2 Hcount Hdisk). specialize (HR2 Hcount Hdisk).
  split; [|split; [|split]].
  - by rewrite HA2, HA.
  - rewrite HA2. cbn [snd].
    rewrite collection_stamped by (intros; apply keep_row_approve_item).
    rewrite HcA. apply stamp_twice.
    + intros. apply approve_item_matches.
    + intros. apply sheet_row_approve_item.
    + intros. apply approve_item_idem.
  - by rewrite HR2, HR.
  - rewrite HR2. cbn [snd].
    rewrite collection_stamped by (intros; apply keep_row_reject_item).
    rewrite HcR. apply stamp_twice.
    + intros. apply reject_item_matches.
    + intros. apply sheet_row_reject_item.
    + intros. apply reject_item_idem.
Qed.

Lemma decision_is_idempotent_witness :
  js_toString (VStr "ISS-1") = Some "ISS-1"
  ∧ disk_ok sample_env = true
  ∧ (∃ item, item ∈ collection (Sheet sample_rows)
             ∧ record_matches item "ISS-1" = true)
  ∧ let approved := (post_approve sample_env (VStr "ISS-1") (Some sample_approval)
                       (Sheet sample_rows)).2 in
    let rejected := (post_reject sample_env (VStr "ISS-1") (VStr "damaged")
                       (Sheet sample_rows)).2 in
    (post_approve sample_env (VStr "ISS-1") (Some sample_approval) approved).1
    = (post_approve sample_env (VStr "ISS-1") (Some sample_approval)
         (Sheet sample_rows)).1
    ∧ collection (post_approve sample_env (VStr "ISS-1") (Some sample_approval)
                    approved).2
      = collection approved
    ∧ (post_reject sample_env (VStr "ISS-1") (VStr "damaged") rejected).1
      = (post_reject sample_env (VStr "ISS-1") (VStr "damaged") (Sheet sample_rows)).1
    ∧ collection (post_reject sample_env (VStr "ISS-1") (VStr "damaged") rejected).2
      = collection rejected.
Proof.
  assert (∃ item, item ∈ collection (Sheet sample_rows)
                  ∧ record_matches item "ISS-1" = true) as Hsome.
  { eexists. split; [right; left|]. vm_compute. reflexivity. }
  split; [reflexivity|]. split; [reflexivity|]. split; [exact Hsome|].
  apply (decision_is_idempotent sample_env (VStr "ISS-1") "ISS-1" sample_approval
           (VStr "damaged") (Sheet sample_rows));
    [reflexivity|reflexivity|exact Hsome].
Defined.

Lemma stamped_lookup f id wb i item :
  (∀ item, keep_row (f item) = keep_row item) →
  collection wb !! i = Some item →
  collection (Sheet (written_rows (stamp_matching f id (collection wb)))) !! i
  = Some (sheet_row (if record_matches item id then f item else item)).
Proof.
  intros Hf Hi. rewrite collection_stamped by done.
  rewrite map_fmap, list_lookup_fmap. unfold stamp_matching.
  by rewrite map_fmap, list_lookup_fmap, Hi.
Qed.

(** X15.  A rejection that follows an approval turns the status to
    Rejected and records the rejection, but the approval's date, and its
    approver and signature when they were given, stay in the record: a
    rejected record can carry a complete approval. *)
Theorem rejection_keeps_approval_fields (e1 e2 : env) (requestId : value)
    (id : string) (approvalData : record) (reason : value) (wb : workbook)
    (i : nat) (item : record) :
  js_toString requestId = Some id →
  disk_ok e1 = true →
  disk_ok e2 = true →
  collection wb !! i = Some item →
  record_matches item id = true →
  let approved := (post_approve e1 requestId (Some approvalData) wb).2 in
  let rejected := (post_reject e2 requestId reason approved).2 in
  ∃ stored,
    collection rejected !! i = Some stored
    ∧ get stored "Status" = VStr "Rejected"
    ∧ get stored "Rejection Date" = VStr (today e2)
    ∧ get stored "Approval Date" = VStr (today e1)
    ∧ (nullish (get approvalData "approvedBy") = false →
       get stored "Approved By" = get approvalData "approvedBy")
    ∧ (nullish (get approvalData "signature") = false →
       get stored "Approval Signature" = get approvalData "signature").
Proof.
  intros Hid Hd1 Hd2 Hi Hm approved rejected.
  assert (item ∈ collection wb) as Hin by (by eapply list_elem_of_lookup_2).
  pose proof (count_matching_pos _ _ _ Hin Hm) as Hcount.
  pose proof (post_approve_answer e1 requestId id approvalData wb Hid Hcount Hd1)
    as HA.
  assert (collection approved !! i
          = Some (sheet_row (approve_item (today e1) approvalData item))) as Hi1.
  { subst approved. rewrite HA. cbn [snd].
    rewrite (stamped_lookup _ _ _ _ item) by
      (try done; intros; apply keep_row_approve_item).
    by rewrite Hm. }
  assert (record_matches (sheet_row (approve_item (today e1) approvalData item)) id
          = true) as Hm1.
  { by rewrite record_matches_sheet_row, approve_item_matches. }
  assert (count_matching id (collection approved) ≠ 0%nat) as Hcount1.
  { eapply count_matching_pos; [|exact Hm1]. by eapply list_elem_of_lookup_2. }
  pose proof (post_reject_answer e2 requestId id reason approved Hid Hcount1 Hd2)
    as HR.
  eexists. split.
  { subst rejected. rewrite HR. cbn [snd].
    rewrite (stamped_lookup _ _ _ _ _ (fun r => keep_row_reject_item _ _ r) Hi1).
    by rewrite Hm1. }
  rewrite sheet_row_reject_item.
  repeat split; try intros Hv.
  - rewrite get_sheet_row; unfold reject_item; by get_field.
  - rewrite get_sheet_row; unfold reject_item; by get_field.
  - rewrite get_sheet_row; unfold reject_item, approve_item; by get_field.
  - rewrite get_sheet_row; unfold reject_item, approve_item; get_field;
      by rewrite ?Hv.
  - rewrite get_sheet_row; unfold reject_item, approve_item; get_field;
      by rewrite ?Hv.
Qed.

Lemma rejection_keeps_approval_fields_witness :
  js_toString (VStr "ISS-1") = Some "ISS-1"
  ∧ disk_ok sample_env = true
  ∧ collection (Sheet sample_rows) !! 1%nat
    = Some (obj [("Component ID", VStr "CMP-002"); ("Part No", VStr "P-8");
                 ("Issue No", VStr "ISS-1"); ("Status", VStr "Pending")])
  ∧ let approved := (post_approve sample_env (VStr "ISS-1") (Some sample_approval)
                       (Sheet sample_rows)).2 in
    let rejected := (post_reject {| today := "2024-05-20"; disk_ok := true |}
                       (VStr "ISS-1") (VStr "damaged") approved).2 in
    ∃ stored,
      collection rejected !! 1%nat = Some stored
      ∧ get stored "Status" = VStr "Rejected"
      ∧ get stored "Rejection Date" = VStr "2024-05-20"
      ∧ get stored "Approval Date" = VStr "2024-05-17"
      ∧ (nullish (get sample_approval "approvedBy") = false →
         get stored "Approved By" = get sample_approval "approvedBy")
      ∧ (nullish (get sample_approval "signature") = false →
         get stored "Approval Signature" = get sample_approval "signature").
Proof.
  assert (collection (Sheet sample_rows) !! 1%nat
          = Some (obj [("Component ID", VStr "CMP-002"); ("Part No", VStr "P-8");
                       ("Issue No", VStr "ISS-1"); ("Status", VStr "Pending")]))
    as Hrow by (vm_compute; reflexivity).
  split; [reflexivity|]. split; [reflexivity|]. split; [exact Hrow|].
  apply (rejection_keeps_approval_fields sample_env
           {| today := "2024-05-20"; disk_ok := true |} (VStr "ISS-1") "ISS-1"
           sample_approval (VStr "damaged") (Sheet sample_rows) 1%nat _
           eq_refl eq_refl eq_refl Hrow).
  vm_compute. reflexivity.
Defined.

(** * Further properties of the user accounts *)

(** ** Users through the JSON file *)

Lemma get_json_row user k : get (json_row user) k = get user k.
Proof.
  unfold get, json_row. rewrite map_lookup_filter.
  destruct (user !! k) as [v|]; simpl; [|done].
  case_guard as Hv; simpl in *; [done|].
  destruct (decide (v = VUndef)) as [->|]; [done|]. by destruct Hv.
Qed.

Lemma some_username_json username users :
  some_username username (map json_row users) = some_username username users.
Proof.
  induction users as [|user users IH]; [done|]. cbn [map some_username].
  by rewrite get_json_row, IH.
Qed.

Lemma find_user_json username password users :
  find_user username password (map json_row users)
  = option_map (option_map json_row) (find_user username password users).
Proof.
  induction users as [|user users IH]; [done|]. cbn [map find_user].
  rewrite !get_json_row, IH.
  destruct (lower_of (get user "username")), (lower_of username); try done.
  by destruct (_ && _).
Qed.

Lemma file_of_with_file isAdmin f a : file_of isAdmin (with_file isAdmin f a) = f.
Proof. by destruct isAdmin. Qed.

Lemma file_of_with_file_other isAdmin f a :
  file_of (negb isAdmin) (with_file isAdmin f a) = file_of (negb isAdmin) a.
Proof. by destruct isAdmin. Qed.

(** ** What a signup does *)

(** The three outcomes of a signup. *)
Lemma post_signup_cases m isAdmin body a :
  (∃ message, post_signup m isAdmin body a = (AuthFailure 400 message, a))
  ∨ (∃ users,
       truthy (get body "username") = true
       ∧ truthy (get body "password") = true
       ∧ shorter_than (get body "username") 3 = false
       ∧ shorter_than (get body "password") 4 = false
       ∧ can_write m = true
       ∧ loadUsers isAdmin a = Some users
       ∧ some_username (get body "username") users = Some false
       ∧ post_signup m isAdmin body a
         = (AuthSuccess (if isAdmin then "Admin signup successful! Please login."
                         else "Signup successful! Please login.")
              (obj [("id", get (newUser m (get body "username")
                                  (get body "password") isAdmin) "id");
                    ("username", get body "username");
                    ("role", VStr (if isAdmin then "admin" else "user"))]),
            with_file isAdmin
              (Users (map json_row
                        (users ++ [newUser m (get body "username")
                                     (get body "password") isAdmin]))) a)).
Proof.
  unfold post_signup.
  destruct (truthy (get body "username")) eqn:Hu; [|left; by eexists].
  destruct (truthy (get body "password")) eqn:Hp; [|left; by eexists].
  cbn [negb orb].
  destruct (shorter_than (get body "username") 3) eqn:Hsu; [left; by eexists|].
  destruct (shorter_than (get body "password") 4) eqn:Hsp; [left; by eexists|].
  unfold registerUser, usernameExists.
  destruct (loadUsers isAdmin a) as [users|] eqn:Hload; [|left; by eexists].
  destruct (some_username (get body "username") users) as [[]|] eqn:Hsome;
    [left; by eexists| |left; by eexists].
  unfold saveUsers. destruct (can_write m) eqn:Hw; [|left; by eexists].
  right. exists users. repeat split; try done;
    do 3 f_equal; unfold newUser; by get_field.
Qed.

Lemma some_username_false name users :
  some_username (VStr name) users = Some false
  ↔ Forall (fun user => ∃ stored, get user "username" = VStr stored
                                  ∧ toLowerCase stored ≠ toLowerCase name) users.
Proof.
  induction users as [|user users IH]; cbn [some_username].
  - split; [constructor|done].
  - destruct (get user "username") as [| |b|n|stored] eqn:Hget; cbn [lower_of];
      try (split; [done|]; intros H; inversion H as [|?? (? & ? & _) ?]; congruence).
    destruct (String.eqb_spec (toLowerCase stored) (toLowerCase name)) as [Heq|Hne].
    + split; [done|]. intros H. inversion H as [|?? (? & ? & Hne) ?]. congruence.
    + rewrite IH. split.
      * intros H. constructor; [by eexists|done].
      * intros H. by inversion H.
Qed.

Lemma find_user_others name password users :
  Forall (fun user => ∃ stored, get user "username" = VStr stored
                                ∧ toLowerCase stored ≠ toLowerCase name) users →
  ∀ rest, find_user (VStr name) password (users ++ rest)
          = find_user (VStr name) password rest.
Proof.
  induction 1 as [|user users (stored & Hget & Hne) _ IH]; intros rest; [done|].
  cbn [app find_user]. rewrite Hget. cbn [lower_of].
  destruct (String.eqb_spec (toLowerCase stored) (toLowerCase name)); [done|].
  cbn [andb]. apply IH.
Qed.

Lemma some_username_found name users user stored :
  Forall (fun user => is_Some (lower_of (get user "username"))) users →
  user ∈ users →
  get user "username" = VStr stored →
  toLowerCase stored = toLowerCase name →
  some_username (VStr name) users = Some true.
Proof.
  intros Hall Hin Hget Heq. induction Hall as [|first users [key Hkey] _ IH].
  - by apply elem_of_nil in Hin.
  - cbn [some_username]. rewrite Hkey. cbn [lower_of].
    destruct (String.eqb_spec key (toLowerCase name)); [done|].
    apply elem_of_cons in Hin as [->|Hin]; [|by apply IH].
    rewrite Hget in Hkey. cbn [lower_of] in Hkey. congruence.
Qed.

Lemma toLowerCase_empty s : toLowerCase s = "" → s = "".
Proof. by destruct s. Qed.

Lemma length_toLowerCase s : String.length (toLowerCase s) = String.length s.
Proof. induction s as [|c s IH]; [done|]. cbn [toLowerCase String.length]. by rewrite IH. Qed.

Lemma truthy_same_key name name' :
  toLowerCase name' = toLowerCase name →
  truthy (VStr name') = truthy (VStr name).
Proof.
  intros Heq. cbn [truthy]. f_equal.
  destruct (String.eqb_spec name' "") as [->|Hn'], (String.eqb_spec name "") as [->|Hn];
    try done.
  - symmetry in Heq. by apply toLowerCase_empty in Heq.
  - by apply toLowerCase_empty in Heq.
Qed.

Lemma shorter_same_key name name' n :
  toLowerCase name' = toLowerCase name →
  shorter_than (VStr name') n = shorter_than (VStr name) n.
Proof.
  intros Heq. cbn [shorter_than].
  by rewrite <- (length_toLowerCase name'), Heq, length_toLowerCase.
Qed.

Lemma strict_eq_true a b : strict_eq a b = true ↔ a = b.
Proof. unfold strict_eq. apply bool_decide_eq_true. Qed.

(** What a successful signup leaves behind, read off its answer. *)
Lemma signup_success m isAdmin body a message user a' :
  post_signup m isAdmin body a = (AuthSuccess message user, a') →
  ∃ users,
    truthy (get body "username") = true
    ∧ truthy (get body "password") = true
    ∧ shorter_than (get body "username") 3 = false
    ∧ loadUsers isAdmin a = Some users
    ∧ some_username (get body "username") users = Some false
    ∧ get user "id"
      = get (newUser m (get body "username") (get body "password") isAdmin) "id"
    ∧ a' = with_file isAdmin
             (Users (map json_row
                       (users ++ [newUser m (get body "username")
                                    (get body "password") isAdmin]))) a.
Proof.
  intros Hpost.
  destruct (post_signup_cases m isAdmin body a)
    as [[failure Hcase]|(users & Hu & Hp & Hsu & _ & _ & Hload & Hsome & Hcase)];
    rewrite Hcase in Hpost; [done|].
  injection Hpost as <- <- <-. exists users. repeat split; try done; by get_field.
Qed.

Lemma loadUsers_with_file isAdmin users a :
  loadUsers isAdmin (with_file isAdmin (Users users) a) = Some users.
Proof. unfold loadUsers. by rewrite file_of_with_file. Qed.

(** X16.  A user who has signed up can log in: with the same password and
    the same name up to letter case the login succeeds and returns the
    identifier and the name of the signup; with any other password it is
    answered 401. *)
Theorem signup_then_login (m m' : moment) (isAdmin : bool) (body body' : record)
    (name name' : string) (a a' : accounts) (message : string) (user : record) :
  get body "username" = VStr name →
  post_signup m isAdmin body a = (AuthSuccess message user, a') →
  get body' "username" = VStr name' →
  toLowerCase name' = toLowerCase name →
  (get body' "password" = get body "password" →
   post_login m' isAdmin body' a'
   = AuthSuccess (if isAdmin then "Admin login successful!" else "Login successful!")
       (obj [("id", get user "id");
             ("name", VStr name);
             ("role", VStr (if isAdmin then "admin" else "user"));
             ("token", VStr ((if isAdmin then "admin-token-" else "user-token-")
                               +:+ random36 m'))]))
  ∧ (truthy (get body' "password") = true →
     get body' "password" ≠ get body "password" →
     post_login m' isAdmin body' a'
     = AuthFailure 401 (if isAdmin then "Invalid admin credentials"
                        else "Invalid username or password")).
Proof.
  intros Hname Hpost Hname' Hkey.
  destruct (signup_success _ _ _ _ _ _ _ Hpost)
    as (users & Hu & Hp & _ & Hload & Hsome & Hid & ->).
  rewrite Hname in Hu, Hsome.
  apply some_username_false in Hsome.
  assert (truthy (get body' "username") = true) as Hu'.
  { by rewrite Hname', (truthy_same_key name name'). }
  assert (∀ password',
            findUser (VStr name') password' isAdmin
              (with_file isAdmin
                 (Users (map json_row
                           (users ++ [newUser m (get body "username")
                                        (get body "password") isAdmin]))) a)
            = if strict_eq (get body "password") password'
              then Some (Some (json_row (newUser m (get body "username")
                                           (get body "password") isAdmin)))
              else Some None) as Hfind.
  { intros password'. unfold findUser. rewrite loadUsers_with_file, find_user_json.
    rewrite find_user_others.
    2:{ eapply Forall_impl; [exact Hsome|]. intros u (stored & ? & ?).
        exists stored. by rewrite Hkey. }
    cbn [find_user].
    replace (get (newUser m (get body "username") (get body "password") isAdmin)
               "username") with (VStr name)
      by (rewrite <- Hname; unfold newUser; by get_field).
    replace (get (newUser m (get body "username") (get body "password") isAdmin)
               "password") with (get body "password")
      by (unfold newUser; by get_field).
    cbn [lower_of]. rewrite Hkey, String.eqb_refl. cbn [andb].
    by destruct (strict_eq _ _). }
  unfold post_login. rewrite Hu'. split.
  - intros Hpw. rewrite Hpw, Hp. cbn [negb orb]. rewrite Hname', Hfind.
    rewrite (proj2 (strict_eq_true _ _) eq_refl).
    rewrite !get_json_row, Hid. do 2 f_equal.
    rewrite <- Hname. unfold newUser. by get_field.
  - intros Hp' Hne. rewrite Hp'. cbn [negb orb]. rewrite Hname', Hfind.
    destruct (strict_eq _ _) eqn:Heq; [|done].
    apply strict_eq_true in Heq. congruence.
Qed.

Lemma signup_then_login_witness :
  get (credentials (VStr "Ravi") (VStr "pass1")) "username" = VStr "Ravi"
  ∧ get (credentials (VStr "RAVI") (VStr "pass1")) "username" = VStr "RAVI"
  ∧ toLowerCase "RAVI" = toLowerCase "Ravi"
  ∧ post_login sample_moment false (credentials (VStr "RAVI") (VStr "pass1"))
      (post_signup sample_moment false (credentials (VStr "Ravi") (VStr "pass1"))
         sample_accounts).2
    = AuthSuccess "Login successful!"
        (obj [("id", VStr "USER-1715940000000");
              ("name", VStr "Ravi");
              ("role", VStr "user");
              ("token", VStr "user-token-k3x9")]).
Proof.
  split; [reflexivity|]. split; [reflexivity|]. split; [reflexivity|].
  refine (proj1 (signup_then_login sample_moment sample_moment false
                   (credentials (VStr "Ravi") (VStr "pass1"))
                   (credentials (VStr "RAVI") (VStr "pass1"))
                   "Ravi" "RAVI" sample_accounts _ _
                   (obj [("id", VStr "USER-1715940000000");
                         ("username", VStr "Ravi"); ("role", VStr "user")])
                   eq_refl _ eq_refl eq_refl) eq_refl).
  vm_compute. reflexivity.
Defined.

(** X17.  A name that has been registered is taken, whatever the letter
    case: a later signup under it, with an acceptable password, is answered
    400 "Username already exists" and leaves the files as they are. *)
Theorem registered_name_is_taken (m m' : moment) (isAdmin : bool)
    (body body' : record) (name name' : string) (a a' : accounts)
    (message : string) (user : record) :
  get body "username" = VStr name →
  post_signup m isAdmin body a = (AuthSuccess message user, a') →
  get body' "username" = VStr name' →
  toLowerCase name' = toLowerCase name →
  truthy (get body' "password") = true →
  shorter_than (get body' "password") 4 = false →
  post_signup m' isAdmin body' a' = (AuthFailure 400 "Username already exists", a').
Proof.
  intros Hname Hpost Hname' Hkey Hp' Hsp'.
  destruct (signup_success _ _ _ _ _ _ _ Hpost)
    as (users & Hu & Hp & Hsu & Hload & Hsome & Hid & ->).
  rewrite Hname in Hu, Hsu, Hsome.
  apply some_username_false in Hsome.
  unfold post_signup.
  rewrite Hname', (truthy_same_key name name'), Hu, Hp' by done.
  rewrite (shorter_same_key name name'), Hsu, Hsp' by done. cbn [negb orb].
  unfold registerUser, usernameExists. rewrite loadUsers_with_file, some_username_json.
  rewrite (some_username_found name' _
             (newUser m (get body "username") (get body "password") isAdmin) name);
    try done.
  - apply Forall_app. split.
    + eapply Forall_impl; [exact Hsome|]. intros u (stored & -> & _). by eexists.
    + constructor; [|constructor]. unfold newUser. get_field. rewrite Hname. by eexists.
  - apply elem_of_app. right. by left.
Qed.

Lemma registered_name_is_taken_witness :
  post_signup sample_moment false (credentials (VStr "ravi") (VStr "other"))
    (post_signup sample_moment false (credentials (VStr "Ravi") (VStr "pass1"))
       sample_accounts).2
  = (AuthFailure 400 "Username already exists",
     (post_signup sample_moment false (credentials (VStr "Ravi") (VStr "pass1"))
        sample_accounts).2).
Proof.
  refine (registered_name_is_taken sample_moment sample_moment false
            (credentials (VStr "Ravi") (VStr "pass1"))
            (credentials (VStr "ravi") (VStr "other"))
            "Ravi" "ravi" sample_accounts _ _ _
            eq_refl _ eq_refl eq_refl eq_refl eq_refl).
  vm_compute. reflexivity.
Defined.

(** ** Names stay distinct *)

Lemma some_username_fresh username users :
  some_username username users = Some false →
  lower_of username ∉ map (fun user => lower_of (get user "username")) users.
Proof.
  induction users as [|user users IH]; cbn [some_username map].
  - intros _. apply not_elem_of_nil.
  - destruct (lower_of (get user "username")) as [stored|]; [|done].
    destruct (lower_of username) as [given|]; [|done].
    destruct (String.eqb_spec stored given) as [|Hne]; [done|].
    intros Hrest. apply not_elem_of_cons. split; [congruence|by apply IH].
Qed.

Lemma name_keys_with_file isAdmin users a :
  name_keys isAdmin (with_file isAdmin (Users (map json_row users)) a)
  = map (fun user => lower_of (get user "username")) users.
Proof.
  unfold name_keys, stored_users. rewrite loadUsers_with_file. cbn [from_option id].
  rewrite List.map_map. apply map_ext. intros user. by rewrite get_json_row.
Qed.

Lemma name_keys_other realm isAdmin f a :
  realm ≠ isAdmin → name_keys realm (with_file isAdmin f a) = name_keys realm a.
Proof. unfold name_keys, stored_users, loadUsers. by destruct realm, isAdmin. Qed.

Lemma names_stay_distinct m req realm a :
  NoDup (name_keys realm a) → NoDup (name_keys realm (account_handle m req a).2).
Proof.
  intros Hno. destruct req as [isAdmin body|isAdmin body]; [|done].
  cbn [account_handle].
  destruct (post_signup_cases m isAdmin body a)
    as [[failure ->]|(users & _ & _ & _ & _ & _ & Hload & Hsome & ->)]; [done|].
  cbn [snd]. destruct (decide (realm = isAdmin)) as [->|Hother].
  - rewrite name_keys_with_file, map_app. cbn [map].
    unfold name_keys, stored_users in Hno. rewrite Hload in Hno. cbn [from_option id] in Hno.
    apply NoDup_app. split; [done|]. split; [|apply NoDup_singleton].
    intros key Hkey ->%list_elem_of_singleton.
    by apply some_username_fresh in Hsome.
  - by rewrite name_keys_other.
Qed.

(** X18.  No request sequence makes two users of one file share a name:
    if the names of a file are pairwise different up to letter case, they
    still are after any signups and logins. *)
Theorem usernames_stay_distinct (steps : list (moment * account_request))
    (realm : bool) (a : accounts) :
  NoDup (name_keys realm a) → NoDup (name_keys realm (run_accounts steps a)).
Proof.
  revert a. induction steps as [|[m req] steps IH]; intros a Hno; [done|].
  cbn [run_accounts foldl fst snd]. apply IH. by apply names_stay_distinct.
Qed.

Lemma usernames_stay_distinct_witness :
  NoDup (name_keys false sample_accounts)
  ∧ NoDup (name_keys false
             (run_accounts
                [(sample_moment, Signup false (credentials (VStr "Ravi") (VStr "pass1")));
                 (sample_moment, Signup false (credentials (VStr "ASHA") (VStr "pass2")));
                 (sample_moment, Login false (credentials (VStr "ravi") (VStr "pass1")))]
                sample_accounts)).
Proof.
  assert (NoDup (name_keys false sample_accounts)) as Hno.
  { vm_compute. apply NoDup_singleton. }
  split; [exact Hno|].
  apply (usernames_stay_distinct _ false sample_accounts Hno).
Defined.

(** ** What a signup leaves alone *)

(** X19.  A signup always answers.  Answered with an error, it leaves both
    files as they were, and it is answered with an error whenever the file
    cannot be written.  Answered with success, it still leaves the file of
    the other kind of account as it was, so that every login of the other
    kind is answered as before. *)
Theorem signup_changes_one_file (m : moment) (isAdmin : bool) (body : record)
    (a : accounts) :
  (post_signup m isAdmin body a).1 ≠ NoReply
  ∧ (∀ status message,
       (post_signup m isAdmin body a).1 = AuthFailure status message →
       (post_signup m isAdmin body a).2 = a)
  ∧ (can_write m = false →
     ∃ message, post_signup m isAdmin body a = (AuthFailure 400 message, a))
  ∧ file_of (negb isAdmin) (post_signup m isAdmin body a).2 = file_of (negb isAdmin) a
  ∧ (∀ m' body',
       post_login m' (negb isAdmin) body' (post_signup m isAdmin body a).2
       = post_login m' (negb isAdmin) body' a).
Proof.
  destruct (post_signup_cases m isAdmin body a)
    as [[failure Hcase]|(users & _ & _ & _ & _ & Hw & _ & _ & Hcase)];
    rewrite Hcase; cbn [fst snd].
  - repeat split; try done. intros _. by eexists.
  - split; [done|]. split; [done|]. split; [congruence|].
    split; [apply file_of_with_file_other|].
    intros m' body'. unfold post_login, findUser, loadUsers.
    by rewrite file_of_with_file_other.
Qed.

(** ** A name that is not text *)

(** X20.  The length check lets a truthy name that is not a string pass.
    Signed up on a file without users, such a name is stored, and from then
    on the file is stuck: no signup on it succeeds or changes it, and a
    login with a name and a password gets no answer. *)
Theorem untyped_name_locks_file (m : moment) (isAdmin : bool) (body : record)
    (a : accounts) :
  lower_of (get body "username") = None →
  truthy (get body "username") = true →
  truthy (get body "password") = true →
  shorter_than (get body "password") 4 = false →
  loadUsers isAdmin a = Some [] →
  can_write m = true →
  let a' := (post_signup m isAdmin body a).2 in
  (∃ message user, (post_signup m isAdmin body a).1 = AuthSuccess message user)
  ∧ ∀ m' body',
      (post_signup m' isAdmin body' a').2 = a'
      ∧ (∃ message, (post_signup m' isAdmin body' a').1 = AuthFailure 400 message)
      ∧ (truthy (get body' "username") = true →
         truthy (get body' "password") = true →
         post_login m' isAdmin body' a' = NoReply).
Proof.
  intros Hlow Hu Hp Hsp Hload Hw a'.
  assert (post_signup m isAdmin body a
          = (AuthSuccess (if isAdmin then "Admin signup successful! Please login."
                          else "Signup successful! Please login.")
               (obj [("id", get (newUser m (get body "username")
                                   (get body "password") isAdmin) "id");
                     ("username", get (newUser m (get body "username")
                                         (get body "password") isAdmin) "username");
                     ("role", get (newUser m (get body "username")
                                     (get body "password") isAdmin) "role")]),
             with_file isAdmin
               (Users [json_row (newUser m (get body "username")
                                   (get body "password") isAdmin)]) a)) as Hpost.
  { unfold post_signup. rewrite Hu, Hp, Hsp. cbn [negb orb].
    replace (shorter_than (get body "username") 3) with false
      by (by destruct (get body "username")).
    unfold registerUser, usernameExists. rewrite Hload. cbn [some_username].
    unfold saveUsers. by rewrite Hw. }
  assert (lower_of (get (json_row (newUser m (get body "username")
                                     (get body "password") isAdmin)) "username")
          = None) as Hstored.
  { rewrite get_json_row. unfold newUser. by get_field. }
  subst a'. rewrite Hpost. cbn [fst snd]. split; [by do 2 eexists|].
  intros m' body'.
  assert (∀ username, usernameExists username isAdmin
                        (with_file isAdmin
                           (Users [json_row (newUser m (get body "username")
                                               (get body "password") isAdmin)]) a)
                      = None) as Hexists.
  { intros username. unfold usernameExists. rewrite loadUsers_with_file.
    cbn [some_username]. by rewrite Hstored. }
  assert (∀ username password,
            registerUser m' username password isAdmin
              (with_file isAdmin
                 (Users [json_row (newUser m (get body "username")
                                     (get body "password") isAdmin)]) a)
            = (NotRegistered "Registration failed",
               with_file isAdmin
                 (Users [json_row (newUser m (get body "username")
                                     (get body "password") isAdmin)]) a)) as Hreg.
  { intros username password. unfold registerUser.
    rewrite Hexists, loadUsers_with_file. reflexivity. }
  split; [|split].
  - unfold post_signup. rewrite Hreg.
    destruct (negb (truthy (get body' "username")) || _); [reflexivity|].
    destruct (shorter_than (get body' "username") 3); [reflexivity|].
    destruct (shorter_than (get body' "password") 4); reflexivity.
  - unfold post_signup. rewrite Hreg.
    destruct (negb (truthy (get body' "username")) || _); [eexists; reflexivity|].
    destruct (shorter_than (get body' "username") 3); [eexists; reflexivity|].
    destruct (shorter_than (get body' "password") 4); eexists; reflexivity.
  - intros Hu' Hp'. unfold post_login, findUser. rewrite Hu', Hp'. cbn [negb orb].
    rewrite loadUsers_with_file. cbn [find_user]. by rewrite Hstored.
Qed.

Lemma untyped_name_locks_file_witness :
  let body := credentials (VNum 12345) (VStr "pass1") in
  let a := {| users_json := Users []; admin_users_json := Unreadable |} in
  let a' := (post_signup sample_moment false body a).2 in
  (∃ message user, (post_signup sample_moment false body a).1 = AuthSuccess message user)
  ∧ ∀ m' body',
      (post_signup m' false body' a').2 = a'
      ∧ (∃ message, (post_signup m' false body' a').1 = AuthFailure 400 message)
      ∧ (truthy (get body' "username") = true →
         truthy (get body' "password") = true →
         post_login m' false body' a' = NoReply).
Proof.
  apply (untyped_name_locks_file sample_moment false
           (credentials (VNum 12345) (VStr "pass1"))
           {| users_json := Users []; admin_users_json := Unreadable |});
    reflexivity.
Defined.

(** * Further properties of the archive *)

(** ** Splitting and joining *)

Lemma split_on_nonempty sep s : split_on sep s ≠ [].
Proof.
  destruct s as [|c s]; cbn [split_on]; [done|].
  destruct (Ascii.eqb c sep); [done|]. by destruct (split_on sep s).
Qed.

Lemma split_on_no_sep sep s : has_char sep s = false → split_on sep s = [s].
Proof.
  induction s as [|c s IH]; cbn [has_char split_on]; [done|].
  intros [Hc Hs]%orb_false_elim. by rewrite Hc, (IH Hs).
Qed.

Lemma split_on_app sep a b :
  has_char sep a = false →
  split_on sep (a +:+ String sep b) = a :: split_on sep b.
Proof.
  induction a as [|c a IH]; cbn [has_char String.append split_on].
  - intros _. by rewrite Ascii.eqb_refl.
  - intros [Hc Ha]%orb_false_elim. by rewrite Hc, (IH Ha).
Qed.

Lemma join_split sep s : join (String sep "") (split_on sep s) = s.
Proof.
  induction s as [|c s IH]; cbn [split_on]; [done|].
  destruct (Ascii.eqb_spec c sep) as [->|Hne].
  - pose proof (split_on_nonempty sep s) as Hnil.
    cbn [join]. destruct (split_on sep s) as [|piece pieces] eqn:Hsplit; [done|].
    rewrite IH. reflexivity.
  - pose proof (split_on_nonempty sep s) as Hnil.
    destruct (split_on sep s) as [|piece pieces] eqn:Hsplit; [done|].
    cbn [join] in IH |- *. destruct pieces as [|next pieces].
    + by rewrite IH.
    + rewrite <- IH. reflexivity.
Qed.

(** ** Sanitized names and decimal numerals *)

Lemma has_char_keep_name_chars c s :
  is_name_char c = false → has_char c (keep_name_chars s) = false.
Proof.
  intros Hc. induction s as [|c' s IH]; cbn [keep_name_chars]; [done|].
  destruct (is_name_char c') eqn:Hc'; [|done]. cbn [has_char]. rewrite IH.
  destruct (Ascii.eqb_spec c' c) as [->|]; [congruence|done].
Qed.

Lemma has_char_sanitized c s : is_name_char c = false → has_char c (sanitized s) = false.
Proof. apply has_char_keep_name_chars. Qed.

Lemma has_char_uint c d :
  is_digit c = false → has_char c (NilEmpty.string_of_uint d) = false.
Proof.
  intros Hc.
  induction d as [|d IH|d IH|d IH|d IH|d IH|d IH|d IH|d IH|d IH|d IH];
    cbn [NilEmpty.string_of_uint has_char]; [done|..]; rewrite IH;
    match goal with
    | |- context [Ascii.eqb ?x c] =>
        destruct (Ascii.eqb_spec x c) as [<-|]; [by vm_compute in Hc|done]
    end.
Qed.

Lemma has_char_N_toString c n : is_digit c = false → has_char c (N_toString n) = false.
Proof.
  intros Hc. unfold N_toString, NilZero.string_of_uint.
  destruct (N.to_uint n) eqn:Hd; rewrite <- ?Hd; try by apply has_char_uint.
  cbn [has_char]. destruct (Ascii.eqb_spec "0" c) as [<-|]; [by vm_compute in Hc|done].
Qed.

Lemma is_name_char_not_space c : is_name_char c = true → is_space c = false.
Proof. destruct c as [[] [] [] [] [] [] [] []]; vm_compute; congruence. Qed.

Lemma plain_round_trip after_blank s :
  plain_from after_blank s = true →
  hyphens_to_spaces (keep_name_chars (replace_spaces_from after_blank s)) = s.
Proof.
  revert after_blank. induction s as [|c s IH]; intros after_blank; [done|].
  cbn [plain_from replace_spaces_from].
  destruct (Ascii.eqb_spec c " ") as [->|Hblank].
  - intros [Hafter Hrest]%andb_prop. apply negb_true_iff in Hafter as ->.
    change (is_space " ") with true. cbn match.
    cbn [keep_name_chars]. change (is_name_char "-") with true. cbn match.
    cbn [hyphens_to_spaces]. by rewrite (IH true Hrest).
  - intros [[Hname Hhyphen]%andb_prop Hrest]%andb_prop.
    rewrite (is_name_char_not_space c Hname). cbn [keep_name_chars]. rewrite Hname.
    cbn [hyphens_to_spaces]. apply negb_true_iff in Hhyphen as ->.
    by rewrite (IH false Hrest).
Qed.

(** ** From an upload to the listing *)

(** The parts of an uploaded file's name. *)
Lemma split_uploaded n name text fileExt :
  split_on "_" (N_toString n +:+ "_" +:+ sanitized name +:+ "_desc_"
                  +:+ sanitized text +:+ fileExt)
  = N_toString n :: sanitized name :: "desc"
      :: split_on "_" (sanitized text +:+ fileExt).
Proof.
  change ("_" +:+ sanitized name +:+ "_desc_" +:+ sanitized text +:+ fileExt)
    with (String "_" (sanitized name
                        +:+ String "_" ("desc" +:+ String "_"
                                          (sanitized text +:+ fileExt)))).
  rewrite split_on_app by (by apply has_char_N_toString).
  rewrite split_on_app by (by apply has_char_sanitized).
  by rewrite (split_on_app "_" "desc").
Qed.

Lemma first_piece_of_description text fileExt :
  is_extension fileExt →
  hd "" (split_on "." (sanitized text +:+ fileExt)) = sanitized text.
Proof.
  intros [->|[rest ->]].
  - replace (sanitized text +:+ "") with (sanitized text)
      by (by induction (sanitized text) as [|c s IH]; cbn; rewrite <- ?IH).
    by rewrite split_on_no_sep by (by apply has_char_sanitized).
  - by rewrite split_on_app by (by apply has_char_sanitized).
Qed.

(** X21.  The listing recovers what an upload put into the file name: the
    entry of an uploaded file carries the name and path the upload
    answered with, the sanitized scientist name ("Unknown" when nothing
    is left of it) and the sanitized description, hyphens shown as blanks.
    A scientist name or description made of letters and digits separated
    by single blanks comes back as it was given.  The scientist name must
    not sanitize to "desc", the marker the listing searches for. *)
Theorem listing_recovers_upload (u : upload_env) (fileExt : string)
    (body : record) (name text : string) (size : Z) (birthtime : string) :
  dir_ok u = true →
  mv_ok u = true →
  js_or (get body "scientistName") (VStr "Unknown") = VStr name →
  js_or (get body "description") (VStr "") = VStr text →
  is_extension fileExt →
  sanitized name ≠ "desc" →
  ∃ filename,
    archive_upload u (Some fileExt) body
    = Archived filename (VStr name) ("/uploads/" +:+ filename)
    ∧ let entry := file_details filename size birthtime in
      get entry "name" = VStr filename
      ∧ get entry "path" = VStr ("/uploads/" +:+ filename)
      ∧ get entry "scientist"
        = VStr (hyphens_to_spaces (if String.eqb (sanitized name) "" then "Unknown"
                                   else sanitized name))
      ∧ get entry "description" = VStr (hyphens_to_spaces (sanitized text))
      ∧ (plain name = true → name ≠ "" → get entry "scientist" = VStr name)
      ∧ (plain text = true → get entry "description" = VStr text).
Proof.
  intros Hdir Hmv Hname Htext Hext Hmarker.
  exists (N_toString (timestamp u) +:+ "_" +:+ sanitized name +:+ "_desc_"
            +:+ sanitized text +:+ fileExt).
  split. { unfold archive_upload. by rewrite Hdir, Hname, Htext, Hmv. }
  assert (indexOf "desc" (N_toString (timestamp u) :: sanitized name :: "desc"
                            :: split_on "_" (sanitized text +:+ fileExt))
          = Some 2%nat) as Hindex.
  { cbn [indexOf].
    destruct (String.eqb_spec (N_toString (timestamp u)) "desc") as [Heq|_].
    { pose proof (has_char_N_toString "d" (timestamp u) eq_refl) as Hd.
      rewrite Heq in Hd. done. }
    destruct (String.eqb_spec (sanitized name) "desc") as [Heq|_]; [done|].
    done. }
  assert (get (file_details
                 (N_toString (timestamp u) +:+ "_" +:+ sanitized name +:+ "_desc_"
                    +:+ sanitized text +:+ fileExt) size birthtime) "scientist"
          = VStr (hyphens_to_spaces (if String.eqb (sanitized name) "" then "Unknown"
                                     else sanitized name))) as Hscientist.
  { unfold file_details. get_field. by rewrite split_uploaded. }
  assert (get (file_details
                 (N_toString (timestamp u) +:+ "_" +:+ sanitized name +:+ "_desc_"
                    +:+ sanitized text +:+ fileExt) size birthtime) "description"
          = VStr (hyphens_to_spaces (sanitized text))) as Hdescription.
  { unfold file_details. get_field. rewrite split_uploaded, Hindex.
    change (drop 3 (N_toString (timestamp u) :: sanitized name :: "desc"
                      :: split_on "_" (sanitized text +:+ fileExt)))
      with (split_on "_" (sanitized text +:+ fileExt)).
    by rewrite join_split, first_piece_of_description. }
  cbv zeta. rewrite Hscientist, Hdescription.
  split; [unfold file_details; by get_field|].
  split; [unfold file_details; by get_field|].
  split; [done|]. split; [done|]. split.
  - intros Hplain Hne. pose proof (plain_round_trip false name Hplain) as Hback.
    fold (replace_spaces name) in Hback. fold (sanitized name) in Hback.
    destruct (String.eqb_spec (sanitized name) "") as [Hempty|_]; [|by rewrite Hback].
    rewrite Hempty in Hback. cbn in Hback. congruence.
  - intros Hplain. pose proof (plain_round_trip false text Hplain) as Hback.
    fold (replace_spaces text) in Hback. fold (sanitized text) in Hback.
    by rewrite Hback.
Qed.

Lemma listing_recovers_upload_witness :
  ∃ filename,
    archive_upload sample_upload_env (Some ".pdf") sample_upload_body
    = Archived filename (VStr "Dr Meera Nair") ("/uploads/" +:+ filename)
    ∧ let entry := file_details filename 2048 "2024-05-17T10:00:00.000Z" in
      get entry "name" = VStr filename
      ∧ get entry "path" = VStr ("/uploads/" +:+ filename)
      ∧ get entry "scientist"
        = VStr (hyphens_to_spaces
                  (if String.eqb (sanitized "Dr Meera Nair") "" then "Unknown"
                   else sanitized "Dr Meera Nair"))
      ∧ get entry "description" = VStr (hyphens_to_spaces (sanitized "Test report 7"))
      ∧ (plain "Dr Meera Nair" = true → "Dr Meera Nair" ≠ "" →
         get entry "scientist" = VStr "Dr Meera Nair")
      ∧ (plain "Test report 7" = true →
         get entry "description" = VStr "Test report 7").
Proof.
  apply (listing_recovers_upload sample_upload_env ".pdf" sample_upload_body
           "Dr Meera Nair" "Test report 7" 2048 "2024-05-17T10:00:00.000Z");
    try reflexivity.
  - right. by eexists.
  - vm_compute. discriminate.
Defined.
